(** * PaperDF: the metadata-driven rename engine of [pdf_metadata_renamer.py]

    A shallow embedding of the decision logic of the renamer: author name
    parsing and rendering, metadata normalisation, file name building, the
    content comparison, the collision loop of [process_list] and the
    format-validator wrapper; then the run of [process_list] over a list of
    documents, the choice of the pages of the snippet, the Save button of
    the Settings window and the version string.

    Conventions of the embedding.
    - A Python [str] is a [string]; the embedding is exact on ASCII text
      (characters above 127 are carried through as caseless, non-blank
      characters).
    - A file's content is a [list byte]; a directory tree is a partial
      function from path names to nodes, paths follow [posixpath].
    - A function that may raise returns an [option]; [None] is the exception
      that the [try] of [process_list] turns into an error line of the log.
    - The [while] loop of [process_list] takes a number of iterations it may
      spend; [None] then means that the loop is still running.
    - What the libraries and the operating system answer is taken from the
      environment [Runtime]: the title case, [str.format], [abspath], and
      whether [os.replace] refuses a rename of a file that exists. *)

From Stdlib Require Import ZArith Ascii String List Lia Bool.
From stdpp Require Import base gmap strings list pretty.

(** ** The Python string primitives the program uses *)

Module Py.

(** [str.isspace] on one ASCII character: TAB..CR, FS..US and the blank.
    [str.split()], [str.strip()] and the class [\s] of [re] all use it. *)
Definition isspace (c : ascii) : bool :=
  let n := nat_of_ascii c in
  (Nat.leb 9 n && Nat.leb n 13) || (Nat.leb 28 n && Nat.leb n 32).

Definition isupper (c : ascii) : bool :=
  let n := nat_of_ascii c in Nat.leb 65 n && Nat.leb n 90.

Definition islower (c : ascii) : bool :=
  let n := nat_of_ascii c in Nat.leb 97 n && Nat.leb n 122.

Definition lower_char (c : ascii) : ascii :=
  if isupper c then ascii_of_nat (nat_of_ascii c + 32) else c.

Definition upper_char (c : ascii) : ascii :=
  if islower c then ascii_of_nat (nat_of_ascii c - 32) else c.

Fixpoint lower (s : string) : string :=
  match s with
  | "" => ""
  | String c r => String (lower_char c) (lower r)
  end.

Fixpoint upper (s : string) : string :=
  match s with
  | "" => ""
  | String c r => String (upper_char c) (upper r)
  end.

(** [str.title()] on ASCII text: a cased character is put in upper case
    when the character before it is not cased, in lower case otherwise.
    Characters above 127 are left as they are and count as not cased; on
    such text [str.title] does more. *)
Fixpoint title_from (previous_is_cased : bool) (s : string) : string :=
  match s with
  | "" => ""
  | String c r =>
      String (if previous_is_cased then lower_char c else upper_char c)
             (title_from (isupper c || islower c) r)
  end.

Definition title (s : string) : string := title_from false s.

(** [s.lstrip(chars)], [s.rstrip(chars)], [s.strip(chars)] for a predicate
    on characters. *)
Fixpoint lstrip_if (p : ascii -> bool) (s : string) : string :=
  match s with
  | "" => ""
  | String c r => if p c then lstrip_if p r else s
  end.

Fixpoint rstrip_if (p : ascii -> bool) (s : string) : string :=
  match s with
  | "" => ""
  | String c r =>
      match rstrip_if p r with
      | "" => if p c then "" else String c ""
      | r' => String c r'
      end
  end.

Definition strip_if (p : ascii -> bool) (s : string) : string :=
  rstrip_if p (lstrip_if p s).

Fixpoint mem_char (c : ascii) (chars : string) : bool :=
  match chars with
  | "" => false
  | String d r => if Ascii.eqb c d then true else mem_char c r
  end.

(** [s.strip()] and [s.strip(chars)] *)
Definition strip (s : string) : string := strip_if isspace s.
Definition strip_chars (chars s : string) : string :=
  strip_if (fun c => mem_char c chars) s.

Definition starts_blank (s : string) : bool :=
  match s with
  | String c _ => isspace c
  | "" => false
  end.

Definition starts_word (s : string) : bool :=
  match s with
  | String c _ => negb (isspace c)
  | "" => false
  end.

(** [s.split()]: the maximal runs of non-blank characters, in order. *)
Fixpoint split (s : string) : list string :=
  match s with
  | "" => []
  | String c r =>
      if isspace c then split r
      else if starts_word r then
        match split r with
        | w :: ws => String c w :: ws
        | [] => [String c ""]
        end
      else String c "" :: split r
  end.

(** [s.split(sep)] for a one-character separator. *)
Fixpoint split_on (sep : ascii) (s : string) : list string :=
  match s with
  | "" => [""]
  | String c r =>
      if Ascii.eqb c sep then "" :: split_on sep r
      else
        match split_on sep r with
        | w :: ws => String c w :: ws
        | [] => [String c ""]
        end
  end.

(** [sep.join(l)] *)
Fixpoint join (sep : string) (l : list string) : string :=
  match l with
  | [] => ""
  | [w] => w
  | w :: ws => w +:+ sep +:+ join sep ws
  end.

(** [''.join(c for c in s if p c)] *)
Fixpoint filter (p : ascii -> bool) (s : string) : string :=
  match s with
  | "" => ""
  | String c r => if p c then String c (filter p r) else filter p r
  end.

(** [s.replace(old, new)] for a non-empty [old]: the occurrences are
    replaced from the left and do not overlap. [skip] counts the
    characters of the occurrence just replaced that are still to be
    passed over. *)
Fixpoint replace_from (old new : string) (skip : nat) (s : string) : string :=
  match s with
  | "" => ""
  | String c r =>
      match skip with
      | S k => replace_from old new k r
      | O =>
          if String.prefix old s
          then new +:+ replace_from old new (String.length old - 1) r
          else String c (replace_from old new 0 r)
      end
  end.

Definition replace (old new s : string) : string := replace_from old new 0 s.

(** [s[:n]] *)
Fixpoint take (n : nat) (s : string) : string :=
  match n, s with
  | S k, String c r => String c (take k r)
  | _, _ => ""
  end.

(** [sub in s] *)
Fixpoint contains (sub s : string) : bool :=
  String.prefix sub s ||
  match s with
  | "" => false
  | String _ r => contains sub r
  end.

(** [all(p c for c in s)] *)
Fixpoint all (p : ascii -> bool) (s : string) : bool :=
  match s with
  | "" => true
  | String c r => p c && all p r
  end.

(** Does [s] have two blanks in a row? Does it end with a blank? *)
Fixpoint has_blank_run (s : string) : bool :=
  match s with
  | "" => false
  | String c r => (isspace c && starts_blank r) || has_blank_run r
  end.

Fixpoint ends_blank (s : string) : bool :=
  match s with
  | "" => false
  | String c r =>
      match r with
      | "" => isspace c
      | _ => ends_blank r
      end
  end.

(** ** The substitutions of [re.sub] that the program uses *)

(** [re.sub(r'[;,]', ' ', s)] *)
Fixpoint sub_semicolon_comma (s : string) : string :=
  match s with
  | "" => ""
  | String c r =>
      String (if Ascii.eqb c ";" || Ascii.eqb c "," then " "%char else c)
             (sub_semicolon_comma r)
  end.

(** [re.sub(r'\s+', ' ', s)]: every maximal run of blanks becomes one
    space, written when the last blank of the run is read. *)
Fixpoint sub_blanks (s : string) : string :=
  match s with
  | "" => ""
  | String c r =>
      if isspace c
      then if starts_blank r then sub_blanks r else String " " (sub_blanks r)
      else String c (sub_blanks r)
  end.

(** Does [s] read [\s*x] at its start? *)
Definition blanks_then (x : ascii) (s : string) : bool :=
  match lstrip_if isspace s with
  | String c _ => Ascii.eqb c x
  | "" => false
  end.

(** [re.sub(r'\s+x', 'x', s)] for a non-blank character [x]: a match is a
    maximal run of blanks followed by [x], and the blanks of it go. *)
Fixpoint sub_blanks_before (x : ascii) (s : string) : string :=
  match s with
  | "" => ""
  | String c r =>
      if isspace c && blanks_then x r
      then sub_blanks_before x r
      else String c (sub_blanks_before x r)
  end.

(** [re.sub(r'a\s*b', repl, s)] for non-blank characters [a] and [b]: the
    matches are found from the left and do not overlap. [inside] says that
    the scan is in a match, after its [a]: blanks are passed over and the
    next character is the [b] that ends the match. *)
Fixpoint sub_pair_from (a b : ascii) (repl : string) (inside : bool)
    (s : string) : string :=
  match s with
  | "" => ""
  | String c r =>
      if inside then
        sub_pair_from a b repl (isspace c) r
      else if Ascii.eqb c a && blanks_then b r
      then repl +:+ sub_pair_from a b repl true r
      else String c (sub_pair_from a b repl false r)
  end.

Definition sub_pair (a b : ascii) (repl s : string) : string :=
  sub_pair_from a b repl false s.

End Py.

(** ** Configuration and environment *)

(** The settings that [save_config] stores and the functions read as
    globals. *)
Record settings := {
  OUTPUT_PATTERN : string;
  BOOK_OUTPUT_PATTERN : string;
  UNPUBLISHED_PLACEHOLDER : string;
  AUTHOR_FMT_PAPER : string;
  AUTHOR_FMT_BOOK : string
}.

(** The nine reserved characters; the fourth, the double quote, is written
    by its code 34. *)
Definition INVALID_FILENAME_CHARS : string := "<>:" +:+ String "034" "/\|?*".
Definition DEFAULT_OUTPUT_PATTERN : string :=
  "{journal} - {year} - {authors} - {title}.pdf".
Definition DEFAULT_BOOK_OUTPUT_PATTERN : string :=
  "{authors} - {title} - {journal} ({year}).pdf".
Definition DEFAULT_UNPUBLISHED : string := "Unpublished".
Definition DEFAULT_AUTHOR_FMT_PAPER : string := "{surname}".
Definition DEFAULT_AUTHOR_FMT_BOOK : string := "{surname}, {first_initial}.".

(** The settings of a first run, when no configuration file exists. *)
Definition default_settings : settings := {|
  OUTPUT_PATTERN := DEFAULT_OUTPUT_PATTERN;
  BOOK_OUTPUT_PATTERN := DEFAULT_BOOK_OUTPUT_PATTERN;
  UNPUBLISHED_PLACEHOLDER := DEFAULT_UNPUBLISHED;
  AUTHOR_FMT_PAPER := DEFAULT_AUTHOR_FMT_PAPER;
  AUTHOR_FMT_BOOK := DEFAULT_AUTHOR_FMT_BOOK
|}.

(** The library functions whose code is not the program's:
    - [titlecase] is the function of the package of that name when it is
      installed and [str.title] otherwise;
    - [str_format pattern journal year authors title] is
      [pattern.format(journal=.., year=.., authors=.., title=..)], [None]
      when it raises;
    - [abspath] is [os.path.abspath];
    - [replace_raises src dst] says that [os.replace(src, dst)] raises for
      a reason that the files of the model do not show: a name that is too
      long for the file system, a file that is locked or protected. *)
Class Runtime := {
  titlecase : string -> string;
  str_format : string -> string -> string -> string -> string -> option string;
  abspath : string -> string;
  replace_raises : string -> string -> bool
}.

(** ** Author formatting *)

Record components := {
  first : string;
  middle : string;
  surname : string;
  suffix : string
}.

Definition _SUFFIXES : list string := ["jr"; "jr."; "sr."; "ii"; "iii"; "iv"].

Definition nonempty (s : string) : bool := negb (String.eqb s "").

(** [parts[1:-1]] *)
Definition inner (parts : list string) : list string := removelast (tl parts).

(** The list [parts] of [_parse_author] before the suffix is looked for. *)
Definition name_parts (full : string) : list string :=
  let s := Py.strip (Py.sub_semicolon_comma full) in
  List.filter nonempty (Py.split s).

(** The two statements of [_parse_author] on the suffix: the pair of
    [suffix] and [parts] after them. *)
Definition pop_suffix (parts : list string) : string * list string :=
  match last parts with
  | Some p =>
      if bool_decide (Py.lower p ∈ _SUFFIXES)
      then (p, removelast parts)
      else ("", parts)
  | None => ("", parts)
  end.

Definition _parse_author (full : string) : components :=
  if negb (nonempty full) then
    {| first := ""; middle := ""; surname := ""; suffix := "" |}
  else
    let parts := name_parts full in
    let '(suffix, parts) := pop_suffix parts in
    match last parts with
    | None => {| first := ""; middle := ""; surname := ""; suffix := suffix |}
    | Some surname =>
        if Nat.eqb (length parts) 1 then
          {| first := ""; middle := ""; surname := surname; suffix := suffix |}
        else
          let first := hd "" parts in
          let middle_parts := inner parts in
          let middle :=
            match middle_parts with
            | [] => ""
            | _ => Py.join " " middle_parts
            end in
          {| first := first; middle := middle; surname := surname;
             suffix := suffix |}
    end.

Definition _initial (s : string) : string :=
  match s with
  | String c _ => String (Py.upper_char c) ""
  | "" => ""
  end.

Definition _middle_initials (m : string) : string :=
  if negb (nonempty m) then ""
  else
    let tokens := List.filter nonempty (Py.split m) in
    Py.join " " (map (fun t => _initial t +:+ ".") tokens).

(** The clean-up of [_render_author], from the first [re.sub] to
    [out.strip(' ,')]. *)
Definition cleanup (out : string) : string :=
  let out := Py.strip (Py.sub_blanks out) in
  let out := Py.sub_blanks_before "," out in
  let out := Py.sub_pair "," "," "," out in
  let out := Py.sub_pair "(" ")" "" out in
  let out := Py.sub_blanks_before "." out in
  Py.strip_chars " ," out.

(** The dictionary [tokens] of [_render_author], in the order of its keys. *)
Definition render_tokens (comps : components) : list (string * string) :=
  [ ("first", first comps);
    ("middle", middle comps);
    ("surname", surname comps);
    ("last", surname comps);
    ("family", surname comps);
    ("suffix", suffix comps);
    ("first_initial", _initial (first comps));
    ("surname_initial", _initial (surname comps));
    ("middle_initials", _middle_initials (middle comps)) ].

Definition substitute (fmt : string) (tokens : list (string * string)) : string :=
  fold_left (fun out kv => Py.replace ("{" +:+ kv.1 +:+ "}") kv.2 out) tokens fmt.

(** ** Metadata *)

(** The value under the key [authors] of the model's answer: a string or an
    array of strings. *)
Inductive authors_value :=
  | AuthorsText (text : string)
  | AuthorsArray (names : list string).

(** The dictionary [data] made from the model's answer; [None] is a key that
    is absent or [null]. *)
Record raw_metadata := {
  raw_authors : option authors_value;
  raw_year : option string;
  raw_journal : option string;
  raw_title : option string
}.

(** The dictionary [meta]; [None] is an absent key. *)
Record metadata := {
  authors : option (list string);
  year : option string;
  journal : option string;
  title : option string
}.

Definition unknown_years : list string := ["unknown"; "unknownyear"; "n/a"; "na"].

Definition unknown_tokens : list string :=
  ["unknown"; "n/a"; "na"; "none"; "anonymous"; "unknown author";
   "unknownauthors"].

Definition is_in (s : string) (l : list string) : bool := bool_decide (s ∈ l).

(** The conditional expression that [get_metadata_from_snippet] assigns to
    [year]. *)
Definition normalize_year (raw_year : option string) : string :=
  match raw_year with
  | None => "n.d."
  | Some y =>
      if negb (nonempty (Py.strip y)) || is_in (Py.lower (Py.strip y)) unknown_years
      then "n.d."
      else Py.strip y
  end.

(** ** The answer of the format validator *)

#[warnings="-register-all"]
Inductive json :=
  | JNull
  | JBool (b : bool)
  | JNumber (literal : string)
  | JString (s : string)
  | JArray (items : list json)
  | JObject (members : list (string * json)).

(** [d.get(key)] on the dictionary that [json.loads] builds from the members
    of an object: of two members with one name the later one stays. *)
Fixpoint dict_get (key : string) (members : list (string * json)) : option json :=
  match members with
  | [] => None
  | (k, v) :: rest =>
      match dict_get key rest with
      | Some v' => Some v'
      | None => if String.eqb k key then Some v else None
      end
  end.

(** What the body of the [try] of [filename_already_formatted] meets. *)
Inductive validator_reply :=
  | CallRaises                 (* [generate_content] raises *)
  | NotJson                    (* [json.loads] raises *)
  | Parsed (data : json).      (* [json.loads] returns [data] *)

Definition filename_already_formatted (reply : validator_reply) : bool :=
  match reply with
  | Parsed (JObject members) =>
      match dict_get "ok" members with
      | Some (JBool val) => val
      | Some (JString val) =>
          is_in (Py.lower (Py.strip val)) ["true"; "yes"; "y"; "1"]
      | _ => false
      end
  | _ => false
  end.

Section Renamer.
Context `{Runtime} (cfg : settings).

Definition _render_author (fmt : string) (comps : components) : string :=
  let out := cleanup (substitute fmt (render_tokens comps)) in
  if nonempty out then titlecase out else "".

Definition author_format (is_book : bool) : string :=
  if is_book then AUTHOR_FMT_BOOK cfg else AUTHOR_FMT_PAPER cfg.

Definition format_authors_list (authors_list : list string) (is_book : bool)
    : string :=
  let fmt := author_format is_book in
  match authors_list with
  | [] => "UnknownAuthors"
  | _ =>
      let rendered :=
        fold_left
          (fun rendered full =>
             let comps := _parse_author full in
             let s := _render_author fmt comps in
             if nonempty s then rendered ++ [s] else rendered)
          authors_list [] in
      match rendered with
      | [] => "UnknownAuthors"
      | _ => Py.join ", " rendered
      end
  end.

(** [get_metadata_from_snippet], from the dictionary [data] on. *)
Definition get_metadata_from_snippet (data : raw_metadata) : metadata :=
  let year := normalize_year (raw_year data) in
  let authors :=
    match raw_authors data with
    | None => []
    | Some (AuthorsText "") => []
    | Some (AuthorsText text) =>
        map Py.strip
          (List.filter (fun a => nonempty (Py.strip a)) (Py.split_on "," text))
    | Some (AuthorsArray names) => names
    end in
  let authors :=
    List.filter
      (fun a => nonempty (Py.strip a)
                && negb (is_in (Py.lower (Py.strip a)) unknown_tokens))
      authors in
  let authors := map titlecase authors in
  let journal := Py.strip (default "" (raw_journal data)) in
  let journal := if is_in (Py.lower journal) unknown_tokens then "" else journal in
  let journal := if nonempty journal then titlecase journal else "" in
  let title := Py.strip (default "" (raw_title data)) in
  let title :=
    if is_in (Py.lower title) unknown_tokens
       || String.eqb (Py.lower title) "unknowntitle"
    then "" else title in
  let title := if nonempty title then titlecase title else "" in
  {| authors := Some authors; year := Some year; journal := Some journal;
     title := Some title |}.

Definition build_new_filename (meta : metadata) (is_book : bool)
    : option string :=
  let journal :=
    match journal meta with
    | Some j => if nonempty j then j else UNPUBLISHED_PLACEHOLDER cfg
    | None => UNPUBLISHED_PLACEHOLDER cfg
    end in
  let authors_str := format_authors_list (default [] (authors meta)) is_book in
  let pattern := if is_book then BOOK_OUTPUT_PATTERN cfg else OUTPUT_PATTERN cfg in
  match str_format pattern journal (default "n.d." (year meta)) authors_str
          (default "UnknownTitle" (title meta)) with
  | None => None
  | Some filename =>
      let cleaned :=
        Py.filter (fun c => negb (Py.mem_char c INVALID_FILENAME_CHARS)) filename in
      Some (Py.strip (Py.join " " (Py.split cleaned)))
  end.

End Renamer.

Definition _metadata_all_empty (meta : metadata) : bool :=
  let authors := default [] (authors meta) in
  let authors_norm := map (fun a => Py.lower (Py.strip a)) authors in
  let authors_empty :=
    Nat.eqb (length authors_norm) 0
    || forallb (fun a => negb (nonempty a)
                         || is_in a ["unknownauthors"; "unknown author"; "unknown"])
         authors_norm in
  let year := Py.lower (Py.strip (default "" (year meta))) in
  let year_empty := is_in year [""; "n.d."; "nd"; "unknown"; "unknownyear"] in
  let journal_empty := negb (nonempty (Py.strip (default "" (journal meta)))) in
  let title_val := Py.strip (default "" (title meta)) in
  let title_empty :=
    negb (nonempty title_val) || String.eqb (Py.lower title_val) "unknowntitle" in
  authors_empty && year_empty && journal_empty && title_empty.

(** ** An instance of the environment

    [str.format] on the patterns whose replacement fields are plain names:
    [{{] and [}}] are the escaped braces, [{name}] is the keyword argument
    [name]. Python raises for a name that is not a keyword argument, for
    [{}], for a single brace; a field with [!], [:], [.] or [[] is outside
    what this function covers, and it gives [None] for it as well. *)
Inductive format_state :=
  | InText
  | AfterOpen
  | InField (name : string)
  | AfterClose.

Fixpoint format_from (kwargs : list (string * string)) (st : format_state)
    (pattern : string) : option string :=
  match pattern with
  | "" => match st with InText => Some "" | _ => None end
  | String c r =>
      match st with
      | InText =>
          if Ascii.eqb c "{" then format_from kwargs AfterOpen r
          else if Ascii.eqb c "}" then format_from kwargs AfterClose r
          else String c <$> format_from kwargs InText r
      | AfterOpen =>
          if Ascii.eqb c "{" then String c <$> format_from kwargs InText r
          else if Py.mem_char c "}!:.[" then None
          else format_from kwargs (InField (String c "")) r
      | InField name =>
          if Ascii.eqb c "}" then
            match list_find (fun kv => kv.1 = name) kwargs with
            | Some (_, (_, v)) => String.app v <$> format_from kwargs InText r
            | None => None
            end
          else if Py.mem_char c "{!:.[" then None
          else format_from kwargs (InField (name +:+ String c "")) r
      | AfterClose =>
          if Ascii.eqb c "}" then String c <$> format_from kwargs InText r
          else None
      end
  end.

Definition format_plain (pattern journal year authors title : string)
    : option string :=
  format_from
    [("journal", journal); ("year", year); ("authors", authors); ("title", title)]
    InText pattern.

(** The environment without the [titlecase] package, for paths that are
    absolute and normalised already ([abspath] leaves those as they are),
    on a file system that refuses no rename of a file that exists. *)
Definition fallback_runtime : Runtime := {|
  titlecase := Py.title;
  str_format := format_plain;
  abspath := fun p => p;
  replace_raises := fun _ _ => false
|}.



(** ** Content hash

    [hashlib.sha1]: SHA-1 on 32-bit words held in [Z]. *)
Module SHA1.
#[local] Open Scope Z_scope.

Definition word (x : Z) : Z := x mod 2 ^ 32.

Definition rotl (n x : Z) : Z :=
  Z.lor (word (Z.shiftl x n)) (Z.shiftr x (32 - n)).

Definition lnot (x : Z) : Z := Z.lxor x 4294967295.

(** The message, a bit 1, zeros up to 56 modulo 64, the length in bits on
    8 bytes. *)
Definition pad (message : list Z) : list Z :=
  let len := length message in
  let zeros := ((119 - len mod 64) mod 64)%nat in
  let bits := Z.of_nat len * 8 in
  message ++ [128] ++ repeat 0 zeros
    ++ map (fun i => Z.shiftr bits (8 * (7 - Z.of_nat i)) mod 256) (seq 0 8).

(** Big-endian words of a list of bytes. *)
Fixpoint words (n : nat) (bytes : list Z) : list Z :=
  match n, bytes with
  | S k, b0 :: b1 :: b2 :: b3 :: rest =>
      (Z.shiftl b0 24 + Z.shiftl b1 16 + Z.shiftl b2 8 + b3) :: words k rest
  | _, _ => []
  end.

Definition f (t : nat) (b c d : Z) : Z :=
  if Nat.ltb t 20 then Z.lor (Z.land b c) (Z.land (lnot b) d)
  else if Nat.ltb t 40 then Z.lxor (Z.lxor b c) d
  else if Nat.ltb t 60 then
    Z.lor (Z.lor (Z.land b c) (Z.land b d)) (Z.land c d)
  else Z.lxor (Z.lxor b c) d.

Definition K (t : nat) : Z :=
  if Nat.ltb t 20 then 1518500249
  else if Nat.ltb t 40 then 1859775393
  else if Nat.ltb t 60 then 2400959708
  else 3395469782.

Record state := { A : Z; B : Z; C : Z; D : Z; E : Z }.

Definition init : state :=
  {| A := 1732584193; B := 4023233417; C := 2562383102; D := 271733878;
     E := 3285377520 |}.

(** One round. [w] holds the sixteen words W(t) .. W(t+15) of the
    schedule; the word W(t+16) is made from four of them. *)
Definition round (sw : state * list Z) (t : nat) : state * list Z :=
  let '(s, w) := sw in
  let wt := nth 0%nat w 0 in
  let temp := word (rotl 5 (A s) + f t (B s) (C s) (D s) + E s + wt + K t) in
  let next :=
    rotl 1 (Z.lxor (Z.lxor (nth 13%nat w 0) (nth 8%nat w 0))
                   (Z.lxor (nth 2%nat w 0) wt)) in
  ({| A := temp; B := A s; C := rotl 30 (B s); D := C s; E := D s |},
   tl w ++ [next]).

Definition compress (h : state) (block : list Z) : state :=
  let s := (fold_left round (seq 0 80) (h, words 16%nat block)).1 in
  {| A := word (A h + A s); B := word (B h + B s); C := word (C h + C s);
     D := word (D h + D s); E := word (E h + E s) |}.

Fixpoint blocks (n : nat) (h : state) (bytes : list Z) : state :=
  match n with
  | O => h
  | S k => blocks k (compress h (firstn 64%nat bytes)) (skipn 64%nat bytes)
  end.

Definition hex_digit (x : Z) : ascii :=
  if Z.ltb x 10 then ascii_of_nat (48 + Z.to_nat x)%nat
  else ascii_of_nat (87 + Z.to_nat x)%nat.

(** The eight hexadecimal digits of a word. *)
Definition hex_word (x : Z) : string :=
  fold_right
    (fun i rest => String (hex_digit (Z.shiftr x (4 * (7 - Z.of_nat i)) mod 16)) rest)
    "" (seq 0 8).

Definition hexdigest (content : list Byte.byte) : string :=
  let bytes := pad (map (fun b => Z.of_N (Byte.to_N b)) content) in
  let h := blocks (length bytes / 64)%nat init bytes in
  hex_word (A h) +:+ hex_word (B h) +:+ hex_word (C h) +:+ hex_word (D h)
    +:+ hex_word (E h).

End SHA1.

(** ** Paths ([posixpath]) *)

Module Path.

Definition has_slash (p : string) : bool := Py.mem_char "/" p.

(** [p[:p.rfind('/') + 1]] *)
Fixpoint head_part (p : string) : string :=
  match p with
  | "" => ""
  | String c r =>
      if has_slash r then String c (head_part r)
      else if Ascii.eqb c "/" then "/" else ""
  end.

(** [p[p.rfind('/') + 1:]] *)
Fixpoint tail_part (p : string) : string :=
  match p with
  | "" => ""
  | String c r =>
      if has_slash r then tail_part r
      else if Ascii.eqb c "/" then r else p
  end.

Definition is_slash (c : ascii) : bool := Ascii.eqb c "/".

(** [os.path.dirname] *)
Definition dirname (p : string) : string :=
  let head := head_part p in
  if nonempty head && negb (Py.all is_slash head)
  then Py.rstrip_if is_slash head
  else head.

(** [os.path.join] of two components *)
Definition join (a b : string) : string :=
  if String.prefix "/" b then b
  else if negb (nonempty a) || Py.all is_slash (String.substring (String.length a - 1) 1 a)
  then a +:+ b
  else a +:+ "/" +:+ b.

(** A file name cut at its last dot: [(name[:i], name[i:])] for the index
    [i] of the last dot, [(name, "")] without a dot. *)
Fixpoint cut_last_dot (name : string) : string * string :=
  match name with
  | "" => ("", "")
  | String c r =>
      if Py.mem_char "." r then
        let '(root, ext) := cut_last_dot r in (String c root, ext)
      else if Ascii.eqb c "." then ("", name)
      else (name, "")
  end.

(** [os.path.splitext]: the extension starts at the last dot of the last
    component, unless only dots come before it there. *)
Definition splitext (p : string) : string * string :=
  let '(root, ext) := cut_last_dot (tail_part p) in
  if nonempty ext && negb (Py.all (fun c => Ascii.eqb c ".") root)
  then (head_part p +:+ root, ext)
  else (p, "").

End Path.

(** ** Files *)

(** What a path names: a file that can be read, or something that exists
    and has a size but cannot be opened for reading (a directory, a file
    without the permission). *)
Inductive node :=
  | File (content : list Byte.byte)
  | Unreadable (size : nat).

Definition filesystem := string -> option node.

(** [os.path.exists] *)
Definition path_exists (fs : filesystem) (p : string) : bool :=
  match fs p with
  | Some _ => true
  | None => false
  end.

(** [os.path.getsize]; [None] when it raises. *)
Definition getsize (fs : filesystem) (p : string) : option nat :=
  match fs p with
  | Some (File content) => Some (length content)
  | Some (Unreadable size) => Some size
  | None => None
  end.

(** [_sha1_hex]; [None] when [open] raises. Reading by chunks and feeding
    them to the hash is hashing the content. *)
Definition _sha1_hex (fs : filesystem) (path : string) : option string :=
  match fs path with
  | Some (File content) => Some (SHA1.hexdigest content)
  | _ => None
  end.

Definition _same_file (fs : filesystem) (a b : string) : bool :=
  match getsize fs a, getsize fs b with
  | Some size_a, Some size_b =>
      if negb (Nat.eqb size_a size_b) then false
      else
        match _sha1_hex fs a, _sha1_hex fs b with
        | Some hash_a, Some hash_b => String.eqb hash_a hash_b
        | _, _ => false
        end
  | _, _ => false
  end.

(** [os.replace] when it goes through, and [None] when the source does not
    exist. The other reasons for which it raises are not in the files of
    the model: [rename_with] asks [replace_raises] for them before it
    commits. *)
Definition os_replace (fs : filesystem) (src dst : string) : option filesystem :=
  match fs src with
  | Some n =>
      Some (fun p => if String.eqb p dst then Some n
                     else if String.eqb p src then None
                     else fs p)
  | None => None
  end.

(** A directory tree with finitely many entries. *)
Definition tree (m : gmap string node) : filesystem := fun p => m !! p.

(** ** Collisions *)

(** [f"{base} [{short}]{ext}"] and [f"{base} [{short}-{counter}]{ext}"] *)
Definition hashed_name (base short ext : string) : string :=
  base +:+ " [" +:+ short +:+ "]" +:+ ext.

Definition numbered_name (base short ext : string) (counter : nat) : string :=
  base +:+ " [" +:+ short +:+ "-" +:+ pretty counter +:+ "]" +:+ ext.

(** The [while] loop of [process_list]. [fuel] bounds the number of times
    its body runs; the result is the value of [dst] when the loop is left,
    by its test or by [break]. *)
Fixpoint suffix_loop (fuel : nat) (fs : filesystem)
    (path dir_path base short ext dst : string) (counter : nat) : option string :=
  if path_exists fs dst then
    if _same_file fs path dst then Some dst
    else
      match fuel with
      | O => None
      | S fuel' =>
          let candidate := numbered_name base short ext counter in
          suffix_loop fuel' fs path dir_path base short ext
            (Path.join dir_path candidate) (counter + 1)
      end
  else Some dst.

(** The values that [dst] takes in the loop, in order: the one the loop
    starts with, then the numbered ones from [counter] on. *)
Definition candidate_path (dir_path base short ext dst : string) (counter : nat)
    (i : nat) : string :=
  match i with
  | O => dst
  | S j => Path.join dir_path (numbered_name base short ext (counter + j))
  end.

(** The loop is left at [dst]: its test fails there, or its [break] is
    taken. *)
Definition settles (fs : filesystem) (path dst : string) : bool :=
  negb (path_exists fs dst) || _same_file fs path dst.

(** How the statement [if os.path.exists(dst): ...] of [process_list] ends. *)
Inductive resolution :=
  | NoCollision (dst : string)     (* [dst] is free, the block is not entered *)
  | Duplicate (existing : string)  (* a [continue] after a content match *)
  | Resolved (dst : string)        (* the block leaves a new, free [dst] *)
  | Raised.                        (* [_sha1_hex(path)] raises *)

Definition resolve (fuel : nat) (fs : filesystem) (path dir_path new_name : string)
    : option resolution :=
  let dst := Path.join dir_path new_name in
  if path_exists fs dst then
    if _same_file fs path dst then Some (Duplicate dst)
    else
      let '(base, ext) := Path.splitext new_name in
      match _sha1_hex fs path with
      | None => Some Raised
      | Some digest =>
          let short := Py.take 8 digest in
          let candidate := hashed_name base short ext in
          let dst := Path.join dir_path candidate in
          match suffix_loop fuel fs path dir_path base short ext dst 2 with
          | None => None
          | Some dst =>
              if path_exists fs dst && _same_file fs path dst
              then Some (Duplicate dst)
              else Some (Resolved dst)
          end
      end
  else Some (NoCollision dst).

(** ** One document *)

Inductive skip_reason := SameName | EmptyMetadata | BookTitleMissing.

(** What the log says of a document. *)
Inductive decision :=
  | AlreadyFormatted
  | Skipped (reason : skip_reason)
  | Renamed (source target : string)
  | DuplicateDetected (source existing : string)
  | Failed.

(** The end of the body of the [for] loop: the collision block and the
    rename. *)
Definition commit (fs : filesystem) (path : string) (r : resolution)
    : decision * filesystem :=
  match r with
  | Duplicate existing => (DuplicateDetected path existing, fs)
  | Raised => (Failed, fs)
  | NoCollision dst | Resolved dst =>
      match os_replace fs path dst with
      | Some fs' => (Renamed path dst, fs')
      | None => (Failed, fs)
      end
  end.

Section Pipeline.
Context `{Runtime} (cfg : settings).

(** Does [os.replace] raise, at the end of the body, for a reason that the
    files do not show? It is called after [NoCollision] and [Resolved]
    only. *)
Definition refused (path : string) (r : resolution) : bool :=
  match r with
  | NoCollision dst | Resolved dst => replace_raises path dst
  | _ => false
  end.

(** The body of the [for] loop from [new_name = build_new_filename(..)]
    on, for the metadata [meta]. An exception of [os.replace] is caught by
    the [except] of the loop: the files are as they were. *)
Definition rename_with (fuel : nat) (fs : filesystem) (path : string)
    (is_book : bool) (meta : metadata) : option (decision * filesystem) :=
  match build_new_filename cfg meta is_book with
  | None => Some (Failed, fs)
  | Some new_name =>
      let dir_path := Path.dirname path in
      let dst := Path.join dir_path new_name in
      if String.eqb (abspath path) (abspath dst) then Some (Skipped SameName, fs)
      else
        (fun r => if refused path r then (Failed, fs) else commit fs path r)
          <$> resolve fuel fs path dir_path new_name
  end.

(** The body of the [try] after the format check. [extraction] is the
    dictionary [data] that the snippet and the model lead to, [None] when
    [extract_first_n_pages] or the call of the model raises. *)
Definition extract_and_rename (fuel : nat) (fs : filesystem) (path : string)
    (is_book : bool) (extraction : option raw_metadata)
    : option (decision * filesystem) :=
  match extraction with
  | None => Some (Failed, fs)
  | Some data =>
      let meta := get_metadata_from_snippet data in
      if is_book && negb (nonempty (Py.strip (default "" (title meta))))
      then Some (Skipped BookTitleMissing, fs)
      else if _metadata_all_empty meta then Some (Skipped EmptyMetadata, fs)
      else rename_with fuel fs path is_book meta
  end.

(** The body of the [for] loop of [process_list] for one path. *)
Definition process_file (fuel : nat) (fs : filesystem) (path : string)
    (is_book : bool) (reply : validator_reply)
    (extraction : option raw_metadata) : option (decision * filesystem) :=
  if filename_already_formatted reply then Some (AlreadyFormatted, fs)
  else extract_and_rename fuel fs path is_book extraction.

End Pipeline.

(** The replies that count as a failure of the validator: the call raises,
    the answer is not JSON, or it is JSON without a member [ok] that is a
    boolean or a string. *)
Definition validator_failed (reply : validator_reply) : bool :=
  match reply with
  | CallRaises | NotJson => true
  | Parsed (JObject members) =>
      match dict_get "ok" members with
      | Some (JBool _) | Some (JString _) => false
      | _ => true
      end
  | Parsed _ => true
  end.

(** ** Shapes of strings *)

(** A run of characters without a blank. *)
Definition is_word (w : string) : Prop :=
  w <> "" /\ Py.all (fun c => negb (Py.isspace c)) w = true.

(** A string without a blank at either end and without two blanks in a
    row. *)
Definition tidy (s : string) : Prop :=
  Py.starts_blank s = false /\ Py.has_blank_run s = false
  /\ Py.ends_blank s = false.

(** Every blank is a space and is not followed by a blank. *)
Fixpoint spaced (s : string) : bool :=
  match s with
  | "" => true
  | String c r =>
      (if Py.isspace c then Ascii.eqb c " " && negb (Py.starts_blank r) else true)
      && spaced r
  end.

(** No character of [s] that satisfies [q] is followed by blanks and then
    by [x]. With the blanks for [q], the pattern [\s+x] has no match in [s];
    with the character [a] for [q], the pattern [a\s*x] has none. *)
Fixpoint no_match (q : ascii -> bool) (x : ascii) (s : string) : bool :=
  match s with
  | "" => true
  | String c r => negb (q c && Py.blanks_then x r) && no_match q x r
  end.

Definition no_blanks_before (x : ascii) (s : string) : bool :=
  no_match Py.isspace x s.

Definition no_pair (a b : ascii) (s : string) : bool :=
  no_match (fun c => Ascii.eqb c a) b s.

(** Is the first, or the last, character of [s] one of [p]? *)
Definition head_in (p : ascii -> bool) (s : string) : bool :=
  match s with
  | String c _ => p c
  | "" => false
  end.

Fixpoint last_in (p : ascii -> bool) (s : string) : bool :=
  match s with
  | "" => false
  | String c r =>
      match r with
      | "" => p c
      | _ => last_in p r
      end
  end.

(** The strings on which no step of the clean-up has anything to do. *)
Definition settled (s : string) : bool :=
  spaced s
  && no_blanks_before "," s
  && no_pair "," "," s
  && no_pair "(" ")" s
  && no_blanks_before "." s
  && negb (head_in (fun c => Py.mem_char c " ,") s)
  && negb (last_in (fun c => Py.mem_char c " ,") s).

(** ** Example data *)

Definition bytes_of (s : string) : list Byte.byte := String.list_byte_of_string s.

Definition is_hex_digit (c : ascii) : bool := Py.mem_char c "0123456789abcdef".

(** A directory with the document [in.pdf], a file [X.pdf] of the same size
    and other content, and a copy of the document under the name that the
    short digest gives. *)
Definition shelf : gmap string node :=
  {[ "/d/in.pdf" := File (bytes_of "AAAA");
     "/d/X.pdf" := File (bytes_of "BBBB");
     "/d/X [e2512172].pdf" := File (bytes_of "AAAA") ]}.

(** The same directory without the copy. *)
(** The directory in which [X.pdf] is a copy of the document. *)
Definition twin_shelf : gmap string node :=
  {[ "/d/in.pdf" := File (bytes_of "AAAA");
     "/d/X.pdf" := File (bytes_of "AAAA") ]}.

Definition small_shelf : gmap string node :=
  {[ "/d/in.pdf" := File (bytes_of "AAAA");
     "/d/X.pdf" := File (bytes_of "BBBB") ]}.

(** A file system that answers that every path exists: the document at
    [/d/in.pdf], an empty file at every other path. *)
Definition crowded : filesystem :=
  fun p => if String.eqb p "/d/in.pdf" then Some (File (bytes_of "A"))
           else Some (File []).


(** Settings with a placeholder of the user's. *)
Definition custom_settings : settings := {|
  OUTPUT_PATTERN := DEFAULT_OUTPUT_PATTERN;
  BOOK_OUTPUT_PATTERN := DEFAULT_BOOK_OUTPUT_PATTERN;
  UNPUBLISHED_PLACEHOLDER := "TBD";
  AUTHOR_FMT_PAPER := DEFAULT_AUTHOR_FMT_PAPER;
  AUTHOR_FMT_BOOK := DEFAULT_AUTHOR_FMT_BOOK
|}.

Definition study : raw_metadata :=
  {| raw_authors := Some (AuthorsArray ["Jane Doe"]); raw_year := Some "2020";
     raw_journal := Some "acm"; raw_title := Some "a Study: part 1/2" |}.

Definition year_only (y : string) : raw_metadata :=
  {| raw_authors := None; raw_year := Some y; raw_journal := None;
     raw_title := None |}.


Definition unknown_only : components :=
  {| first := ""; middle := ""; surname := "unknown"; suffix := "" |}.

Definition no_answer : raw_metadata :=
  {| raw_authors := None; raw_year := None; raw_journal := None;
     raw_title := None |}.

(** ** A run of [process_list] *)

(** The globals that the Settings window edits: the five settings of the
    names, the key and the model. *)
Record globals := {
  naming : settings;
  API_KEY : string;
  MODEL_NAME : string
}.

(** What the run meets when the turn of a path comes: whether the user has
    asked to stop by then, the reply of the validator for the path, and the
    dictionary [data] that the snippet of the document leads to (see
    [process_file]). *)
Record turn := {
  turn_path : string;
  stop_is_set : bool;
  turn_reply : validator_reply;
  turn_extraction : option raw_metadata
}.

Inductive log_line :=
  | Processed (path : string) (d : decision)
  | AbortedByUser
  | Done.

(** How a call of [process_list] ends: with the error box for the missing
    key, or with the log and the files that the loop leaves. *)
Inductive run :=
  | KeyRequired
  | Ran (log : list log_line) (fs : filesystem).

Section Run.
Context `{Runtime} (g : globals).

(** The [for] loop of [process_list]. *)
Fixpoint process_turns (fuel : nat) (fs : filesystem) (is_book : bool)
    (turns : list turn) : option (list log_line * filesystem) :=
  match turns with
  | [] => Some ([], fs)
  | t :: rest =>
      if stop_is_set t then Some ([AbortedByUser], fs)
      else
        match process_file (naming g) fuel fs (turn_path t) is_book
                (turn_reply t) (turn_extraction t) with
        | None => None
        | Some (d, fs') =>
            match process_turns fuel fs' is_book rest with
            | None => None
            | Some (log, fs'') => Some (Processed (turn_path t) d :: log, fs'')
            end
        end
  end.

(** [process_list]; [stop_at_end] is [stop_event.is_set()] after the
    loop. *)
Definition process_list (fuel : nat) (fs : filesystem) (turns : list turn)
    (is_book : bool) (stop_at_end : bool) : option run :=
  if negb (nonempty (API_KEY g)) then Some KeyRequired
  else
    match process_turns fuel fs is_book turns with
    | None => None
    | Some (log, fs') =>
        Some (Ran (log ++ (if stop_at_end then [] else [Done])) fs')
    end.

End Run.

(** What a decision has done to the files: a rename has moved the document
    to a path that was free and has touched no other path; every other
    decision has left the files as they were. *)
Definition effect_of (fs : filesystem) (path : string) (d : decision)
    (fs' : filesystem) : Prop :=
  match d with
  | Renamed source target =>
      source = path
      /\ fs target = None
      /\ fs path <> None
      /\ fs' target = fs path
      /\ fs' path = None
      /\ forall p, p <> path -> p <> target -> fs' p = fs p
  | _ => fs' = fs
  end.

(** A key and a model for the examples. *)
Definition example_globals : globals :=
  {| naming := default_settings; API_KEY := "k"; MODEL_NAME := "m" |}.

Definition study_turn : turn :=
  {| turn_path := "/d/in.pdf"; stop_is_set := false;
     turn_reply := Parsed (JObject [("ok", JBool false)]);
     turn_extraction := Some study |}.

(** ** Answers in which the model has found nothing *)

(** A name, a journal or a title that [get_metadata_from_snippet] takes for
    none: blank, or one of the unknown tokens in any case. *)
Definition unknown_name (a : string) : bool :=
  negb (nonempty (Py.strip a)) || is_in (Py.lower (Py.strip a)) unknown_tokens.

(** A year that the two tests, of [get_metadata_from_snippet] and of
    [_metadata_all_empty], take together for none. *)
Definition no_year (y : string) : bool :=
  is_in (Py.lower (Py.strip y))
    [""; "n.d."; "nd"; "unknown"; "unknownyear"; "n/a"; "na"].

Definition nothing_found (data : raw_metadata) : bool :=
  match raw_authors data with
  | None => true
  | Some (AuthorsText text) => forallb unknown_name (Py.split_on "," text)
  | Some (AuthorsArray names) => forallb unknown_name names
  end
  && from_option no_year true (raw_year data)
  && from_option unknown_name true (raw_journal data)
  && from_option
       (fun t => unknown_name t
                 || String.eqb (Py.lower (Py.strip t)) "unknowntitle")
       true (raw_title data).

(** ** The snippet *)

(** [l[:n]] for an integer [n] of either sign: with a negative [n] the
    slice stops [-n] items before the end. *)
Definition slice_to {A : Type} (n : Z) (l : list A) : list A :=
  if (0 <=? n)%Z then firstn (Z.to_nat n) l
  else firstn (length l - Z.to_nat (- n)) l.

(** The pages that [extract_first_n_pages] has added to the writer when its
    loop ends, for the pages of the reader. *)
Definition extract_first_n_pages {page : Type} (pages : list page) (n : Z)
    : list page :=
  fold_left (fun writer p => writer ++ [p]) (slice_to n pages) [].

(** ** The Settings window and the version *)

Definition DEFAULT_MODEL : string := "gemini-2.5-flash-lite".

(** The text of the seven entries of the window. *)
Record entries := {
  pat_entry : string;
  book_pat_entry : string;
  plc_entry : string;
  paper_fmt_entry : string;
  book_fmt_entry : string;
  api_entry_cfg : string;
  model_entry : string
}.

(** [s or d] on strings *)
Definition or_else (s d : string) : string := if nonempty s then s else d.

(** The entries as [show_config] fills them from the globals. *)
Definition show_config (g : globals) : entries := {|
  pat_entry := OUTPUT_PATTERN (naming g);
  book_pat_entry := BOOK_OUTPUT_PATTERN (naming g);
  plc_entry := UNPUBLISHED_PLACEHOLDER (naming g);
  paper_fmt_entry := AUTHOR_FMT_PAPER (naming g);
  book_fmt_entry := AUTHOR_FMT_BOOK (naming g);
  api_entry_cfg := API_KEY g;
  model_entry := MODEL_NAME g
|}.

(** The globals after the button Save. *)
Definition save_and_close (g : globals) (e : entries) : globals := {|
  naming := {|
    OUTPUT_PATTERN := or_else (Py.strip (pat_entry e)) DEFAULT_OUTPUT_PATTERN;
    BOOK_OUTPUT_PATTERN :=
      or_else (Py.strip (book_pat_entry e)) DEFAULT_BOOK_OUTPUT_PATTERN;
    UNPUBLISHED_PLACEHOLDER := or_else (Py.strip (plc_entry e)) DEFAULT_UNPUBLISHED;
    AUTHOR_FMT_PAPER :=
      or_else (Py.strip (paper_fmt_entry e)) DEFAULT_AUTHOR_FMT_PAPER;
    AUTHOR_FMT_BOOK := or_else (Py.strip (book_fmt_entry e)) DEFAULT_AUTHOR_FMT_BOOK
  |};
  API_KEY := or_else (Py.strip (api_entry_cfg e)) (API_KEY g);
  MODEL_NAME := or_else (Py.strip (model_entry e)) DEFAULT_MODEL
|}.

(** [_read_version_from_file]. [version_file] is [None] when [VERSION.txt]
    does not exist, [Some None] when a statement of the [try] raises, and
    [Some (Some text)] when the file is read as [text]. *)
Definition _read_version_from_file (version_file : option (option string))
    : string :=
  match version_file with
  | Some (Some text) =>
      let v := Py.strip text in
      if nonempty v then v else ""
  | _ => ""
  end.

(** [APP_VERSION], for the value of the environment variable of that name,
    [None] when it is not set. *)
Definition APP_VERSION (env : option string)
    (version_file : option (option string)) : string :=
  or_else (Py.strip (default "" env))
    (or_else (_read_version_from_file version_file) "dev").

(** Every setting is there and has no blank around it. *)
Definition trimmed (s : string) : Prop := s <> "" /\ Py.strip s = s.

(** What Save makes of an entry: its text without the blanks around it,
    and [fallback] when nothing is left of it. *)
Definition saved_from (entry fallback saved : string) : Prop :=
  (Py.strip entry = "" -> saved = fallback)
  /\ (Py.strip entry <> "" -> saved = Py.strip entry).

(** A window in which the pattern of papers is blank, the key is left
    empty and the model has blanks around it. *)
Definition edited_entries : entries := {|
  pat_entry := "   ";
  book_pat_entry := "{title}.pdf";
  plc_entry := "Unpublished";
  paper_fmt_entry := "{surname}";
  book_fmt_entry := "{surname}";
  api_entry_cfg := "";
  model_entry := " some-model "
|}.

(** A character of ASCII. *)
Definition is_ascii (c : ascii) : bool := Nat.ltb (nat_of_ascii c) 128.

Definition well_kept (g : globals) : Prop :=
  trimmed (OUTPUT_PATTERN (naming g))
  /\ trimmed (BOOK_OUTPUT_PATTERN (naming g))
  /\ trimmed (UNPUBLISHED_PLACEHOLDER (naming g))
  /\ trimmed (AUTHOR_FMT_PAPER (naming g))
  /\ trimmed (AUTHOR_FMT_BOOK (naming g))
  /\ trimmed (MODEL_NAME g).

(** An answer of the model with nothing in it. *)
Definition empty_answer : raw_metadata :=
  {| raw_authors := Some (AuthorsArray [" "; "Anonymous"]);
     raw_year := Some "N/A"; raw_journal := Some "none";
     raw_title := Some " UnknownTitle" |}.

(** ** Characters of names *)

(** A character other than the two that the formats and the clean-up give
    a meaning to inside a name: the opening brace and the opening
    parenthesis. *)
Definition plain (c : ascii) : bool := negb (Py.mem_char c "{(").

(** A character that a part of a name with plain characters can have: no
    blank, no separator, no opening brace or parenthesis. *)
Definition name_char (c : ascii) : bool :=
  negb (Py.isspace c) && negb (Py.mem_char c ";,") && plain c.

(** A blank or one of the two separators that [_parse_author] replaces by
    a space. *)
Definition separator (c : ascii) : bool := Py.isspace c || Py.mem_char c ";,".

Definition no_parts : components :=
  {| first := ""; middle := ""; surname := ""; suffix := "" |}.

(** * Properties *)

(** ** Author lists *)

Lemma collect_renders {A : Type} (keep : string -> bool) (g : A -> string)
    (l : list A) (acc : list string) :
  fold_left (fun rendered x => if keep (g x) then rendered ++ [g x] else rendered)
    l acc
  = acc ++ List.filter keep (map g l).
Proof.
  revert acc. induction l as [|x l IH]; intros acc; simpl.
  - by rewrite app_nil_r.
  - rewrite IH. destruct (keep (g x)); [|done].
    by rewrite <- app_assoc.
Qed.

Section AuthorLists.
Context `{Runtime} (cfg : settings).

Lemma format_authors_list_renders authors_list is_book :
  format_authors_list cfg authors_list is_book =
    match List.filter nonempty
            (map (fun full => _render_author (author_format cfg is_book)
                                (_parse_author full)) authors_list) with
    | [] => "UnknownAuthors"
    | rendered => Py.join ", " rendered
    end.
Proof.
  unfold format_authors_list.
  destruct authors_list as [|full rest]; [done|].
  rewrite (collect_renders nonempty
             (fun full => _render_author (author_format cfg is_book)
                            (_parse_author full))).
  rewrite app_nil_l. by destruct (List.filter _ _).
Qed.

Lemma parse_unknown : _parse_author "unknown" = unknown_only.
Proof. reflexivity. Qed.

End AuthorLists.

(** C3, as the program has it. For every author template the empty author
    list gives the sentinel "UnknownAuthors". The list ["unknown"] is not
    filtered by [format_authors_list]: its result is the render of the name
    whose surname is "unknown" when that render is not empty, and the
    sentinel only when the render is empty. *)
Theorem format_authors_empty_and_unknown `{Runtime} (cfg : settings) (is_book : bool) :
  format_authors_list cfg [] is_book = "UnknownAuthors"
  /\ format_authors_list cfg ["unknown"] is_book =
       (let s := _render_author (author_format cfg is_book) unknown_only in
        if nonempty s then s else "UnknownAuthors").
Proof.
  split; [reflexivity|].
  rewrite format_authors_list_renders. cbn [map].
  rewrite parse_unknown. cbn [List.filter]. cbv zeta.
  by destruct (nonempty _).
Qed.

(** C3 fails as stated: with the default paper template [{surname}] and
    [str.title], the list ["unknown"] is formatted as "Unknown". *)
Lemma format_authors_unknown_is_rendered :
  @format_authors_list fallback_runtime default_settings ["unknown"] false = "Unknown"
  /\ @format_authors_list fallback_runtime default_settings ["unknown"] false
     <> "UnknownAuthors".
Proof. split; [reflexivity | discriminate]. Qed.

(** C10: [format_authors_list] keeps the order of its input. The string it
    returns is the join with ", " of the non-empty renders of the authors,
    taken in the order of the authors (the empty renders are dropped); when
    no render is left, it is the sentinel of C3. *)
Theorem format_authors_list_keeps_order `{Runtime} (cfg : settings)
    (authors_list : list string) (is_book : bool) :
  let render := fun full =>
    _render_author (author_format cfg is_book) (_parse_author full) in
  let rendered := List.filter nonempty (map render authors_list) in
  format_authors_list cfg authors_list is_book =
    if Nat.eqb (length rendered) 0 then "UnknownAuthors"
    else Py.join ", " rendered.
Proof.
  intros render rendered. rewrite format_authors_list_renders.
  fold render. fold rendered.
  by destruct rendered.
Qed.

(** ** Names *)

Lemma name_parts_nonempty full t : In t (name_parts full) -> t <> "".
Proof.
  unfold name_parts. intros [_ Ht]%filter_In ->. discriminate.
Qed.

Lemma pop_suffix_snoc init t :
  pop_suffix (init ++ [t]) =
    if bool_decide (Py.lower t ∈ _SUFFIXES) then (t, init) else ("", init ++ [t]).
Proof.
  unfold pop_suffix. rewrite last_snoc.
  destruct (bool_decide _); [|done]. by rewrite removelast_last.
Qed.

Lemma parse_author_nonempty full :
  name_parts full <> [] -> nonempty full = true.
Proof. destruct full; [by intros []|done]. Qed.

(** The fields of the result, read off the remaining tokens. *)
Lemma parse_author_fields full sfx parts :
  name_parts full <> [] ->
  pop_suffix (name_parts full) = (sfx, parts) ->
  suffix (_parse_author full) = sfx
  /\ surname (_parse_author full) = default "" (last parts)
  /\ (forall t1 mid tn, parts = t1 :: mid ++ [tn] ->
        first (_parse_author full) = t1
        /\ middle (_parse_author full) = Py.join " " mid)
  /\ (forall t, parts = [t] ->
        first (_parse_author full) = "" /\ middle (_parse_author full) = "").
Proof.
  intros Hne Hpop. unfold _parse_author.
  rewrite (parse_author_nonempty full Hne). simpl negb. cbv iota.
  rewrite Hpop.
  destruct parts as [|p parts'] using rev_ind.
  - simpl. repeat split; intros; simplify_eq.
  - clear IHparts'. rewrite last_snoc. cbn [default from_option].
    destruct (Nat.eqb (length (parts' ++ [p])) 1) eqn:Hlen; cbn [suffix surname first middle].
    + split; [done|]. split; [done|]. split.
      * intros t1 mid tn Heq. rewrite Heq in Hlen. cbn [length] in Hlen.
        rewrite length_app in Hlen. cbn [length] in Hlen.
        apply Nat.eqb_eq in Hlen. lia.
      * done.
    + split; [done|]. split; [done|]. split.
      * intros t1 mid tn Heq. rewrite Heq. split; [done|].
        unfold inner. cbn [tl]. rewrite removelast_last. by destruct mid.
      * intros t Heq. rewrite Heq in Hlen. discriminate.
Qed.

Lemma pop_suffix_remaining_nonempty full :
  (pop_suffix (name_parts full)).2 <> [] -> name_parts full <> [].
Proof. intros Hrem Hnil. apply Hrem. by rewrite Hnil. Qed.

(** C4: when at least two tokens are left after the separators [;] and [,]
    are replaced by spaces, the name is split at blanks and a trailing suffix
    token is taken off, [_parse_author] gives the first of them as [first],
    the last as [surname] and the ones strictly between, joined with single
    spaces, as [middle]; when exactly one token is left it is the [surname],
    and [first] and [middle] are empty. *)
Theorem parse_author_first_middle_surname (full : string) :
  (forall t1 mid tn,
     (pop_suffix (name_parts full)).2 = t1 :: mid ++ [tn] ->
     first (_parse_author full) = t1
     /\ surname (_parse_author full) = tn
     /\ middle (_parse_author full) = Py.join " " mid)
  /\ (forall t,
     (pop_suffix (name_parts full)).2 = [t] ->
     surname (_parse_author full) = t
     /\ first (_parse_author full) = ""
     /\ middle (_parse_author full) = "").
Proof.
  destruct (pop_suffix (name_parts full)) as [sfx parts] eqn:Hpop.
  split.
  - intros t1 mid tn Hparts. cbn [snd] in Hparts.
    assert (Hne : name_parts full <> []).
    { apply pop_suffix_remaining_nonempty. by rewrite Hpop, Hparts. }
    destruct (parse_author_fields full sfx parts Hne Hpop)
      as (_ & Hsurname & Hmany & _).
    destruct (Hmany t1 mid tn Hparts) as [Hfirst Hmiddle].
    repeat split; [done| |done].
    rewrite Hsurname, Hparts. by rewrite last_cons, last_snoc.
  - intros t Hparts. cbn [snd] in Hparts.
    assert (Hne : name_parts full <> []).
    { apply pop_suffix_remaining_nonempty. by rewrite Hpop, Hparts. }
    destruct (parse_author_fields full sfx parts Hne Hpop)
      as (_ & Hsurname & _ & Hone).
    destruct (Hone t Hparts) as [Hfirst Hmiddle].
    repeat split; [|done|done].
    by rewrite Hsurname, Hparts.
Qed.

Lemma parse_author_first_middle_surname_witness :
  (first (_parse_author "Mary Ann Lee Smith, III") = "Mary"
   /\ surname (_parse_author "Mary Ann Lee Smith, III") = "Smith"
   /\ middle (_parse_author "Mary Ann Lee Smith, III") = "Ann Lee")
  /\ (surname (_parse_author "Smith Jr.") = "Smith"
      /\ first (_parse_author "Smith Jr.") = ""
      /\ middle (_parse_author "Smith Jr.") = "").
Proof.
  split.
  - apply (proj1 (parse_author_first_middle_surname "Mary Ann Lee Smith, III")
             "Mary" ["Ann"; "Lee"] "Smith").
    reflexivity.
  - apply (proj2 (parse_author_first_middle_surname "Smith Jr.") "Smith").
    reflexivity.
Defined.

(** C9: the last token [t] of a name is taken as the suffix exactly when its
    lower-case form is one of jr, jr., sr., ii, iii, iv. So "Jr" without a
    period is a suffix, and "Sr" without a period is not: a name that ends
    in the token "Sr" has it as its surname and has no suffix. *)
Theorem suffix_recognition (full : string) (init : list string) (t : string) :
  name_parts full = init ++ [t] ->
  (suffix (_parse_author full) = t
   <-> Py.lower t ∈ ["jr"; "jr."; "sr."; "ii"; "iii"; "iv"])
  /\ (Py.lower t ∉ ["jr"; "jr."; "sr."; "ii"; "iii"; "iv"] ->
      suffix (_parse_author full) = "" /\ surname (_parse_author full) = t)
  /\ (t = "Jr" -> suffix (_parse_author full) = "Jr")
  /\ (t = "Sr" ->
      surname (_parse_author full) = "Sr" /\ suffix (_parse_author full) = "").
Proof.
  intros Hparts.
  assert (Hne : name_parts full <> []).
  { rewrite Hparts. by destruct init. }
  assert (Ht : t <> "").
  { apply (name_parts_nonempty full). rewrite Hparts.
    apply in_or_app. right. by left. }
  assert (Hpop : pop_suffix (name_parts full) =
                   if bool_decide (Py.lower t ∈ _SUFFIXES)
                   then (t, init) else ("", init ++ [t])).
  { rewrite Hparts. apply pop_suffix_snoc. }
  fold _SUFFIXES.
  destruct (bool_decide (Py.lower t ∈ _SUFFIXES)) eqn:Hdec.
  - destruct (parse_author_fields full t init Hne Hpop) as (Hsuffix & _).
    assert (Hin := Hdec). apply bool_decide_eq_true in Hin.
    split; [done|]. split; [done|]. split; [by intros ->|].
    intros ->. vm_compute in Hdec. discriminate.
  - destruct (parse_author_fields full "" (init ++ [t]) Hne Hpop)
      as (Hsuffix & Hsurname & _).
    assert (Hout := Hdec). apply bool_decide_eq_false in Hout.
    rewrite last_snoc in Hsurname. cbn in Hsurname.
    split; [|split; [done|split]].
    + split; [|done]. intros Heq. congruence.
    + intros ->. vm_compute in Hdec. discriminate.
    + by intros ->.
Qed.

Lemma suffix_recognition_witness :
  (suffix (_parse_author "John Smith Jr") = "Jr"
   <-> Py.lower "Jr" ∈ ["jr"; "jr."; "sr."; "ii"; "iii"; "iv"])
  /\ surname (_parse_author "John Smith Sr") = "Sr"
  /\ suffix (_parse_author "John Smith Sr") = "".
Proof.
  split.
  - apply (suffix_recognition "John Smith Jr" ["John"; "Smith"] "Jr").
    reflexivity.
  - apply (suffix_recognition "John Smith Sr" ["John"; "Smith"] "Sr");
      reflexivity.
Defined.

(** ** Metadata *)

Lemma is_in_spec (s : string) (l : list string) : is_in s l = true <-> s ∈ l.
Proof. unfold is_in. apply bool_decide_eq_true. Qed.

Lemma nonempty_false (s : string) : nonempty s = false <-> s = "".
Proof.
  unfold nonempty. rewrite negb_false_iff. apply String.eqb_eq.
Qed.

(** C2, as the program has it. When the year of the answer is absent,
    blank, or one of unknown, unknownyear, n/a, na in any case, the year of
    the metadata is the literal "n.d."; no setting enters
    [get_metadata_from_snippet]. Every other year is kept as the string
    received, stripped of the blanks around it. *)
Theorem year_normalisation `{Runtime} (data : raw_metadata) :
  (raw_year data = None ->
   year (get_metadata_from_snippet data) = Some "n.d.")
  /\ (forall y,
      raw_year data = Some y ->
      Py.strip y = ""
      \/ Py.lower (Py.strip y) ∈ ["unknown"; "unknownyear"; "n/a"; "na"] ->
      year (get_metadata_from_snippet data) = Some "n.d.")
  /\ (forall y,
      raw_year data = Some y ->
      Py.strip y <> "" ->
      Py.lower (Py.strip y) ∉ ["unknown"; "unknownyear"; "n/a"; "na"] ->
      year (get_metadata_from_snippet data) = Some (Py.strip y)).
Proof.
  unfold get_metadata_from_snippet. cbn [year]. unfold normalize_year.
  fold unknown_years.
  repeat split.
  - by intros ->.
  - intros y -> [Hblank | Hunknown].
    + by rewrite Hblank.
    + apply is_in_spec in Hunknown. rewrite Hunknown.
      by rewrite orb_true_r.
  - intros y -> Hblank Hunknown.
    destruct (nonempty (Py.strip y)) eqn:Hne.
    + destruct (is_in _ unknown_years) eqn:Hin; [|done].
      by apply is_in_spec in Hin.
    + by apply nonempty_false in Hne.
Qed.

Lemma year_normalisation_witness :
  year (@get_metadata_from_snippet fallback_runtime no_answer) = Some "n.d."
  /\ year (@get_metadata_from_snippet fallback_runtime (year_only " N/A "))
     = Some "n.d."
  /\ year (@get_metadata_from_snippet fallback_runtime (year_only " 2019-2020 "))
     = Some "2019-2020".
Proof.
  split; [|split].
  - apply (@year_normalisation fallback_runtime no_answer). reflexivity.
  - apply (proj1 (proj2 (@year_normalisation fallback_runtime (year_only " N/A ")))
             " N/A "); [reflexivity|].
    right. apply (bool_decide_unpack _). by vm_compute.
  - apply (proj2 (proj2 (@year_normalisation fallback_runtime
                            (year_only " 2019-2020 "))) " 2019-2020 ").
    + reflexivity.
    + discriminate.
    + apply (bool_decide_unpack _). by vm_compute.
Defined.

(** C2 fails as stated: the year of an answer without a year is "n.d."
    under the default settings, whose placeholder is "Unpublished", and
    under settings whose placeholder is "TBD". *)
Lemma year_is_not_the_configured_placeholder :
  year (@get_metadata_from_snippet fallback_runtime no_answer) = Some "n.d."
  /\ year (@get_metadata_from_snippet fallback_runtime no_answer)
     <> Some (UNPUBLISHED_PLACEHOLDER default_settings)
  /\ year (@get_metadata_from_snippet fallback_runtime no_answer)
     <> Some (UNPUBLISHED_PLACEHOLDER custom_settings).
Proof. repeat split; discriminate. Qed.

(** ** The format validator *)

(** What [extract_and_rename] decides is never that the name is
    formatted already. *)
Lemma extract_and_rename_decides `{Runtime} (cfg : settings) fuel fs path
    is_book extraction d fs' :
  extract_and_rename cfg fuel fs path is_book extraction = Some (d, fs') ->
  d <> AlreadyFormatted.
Proof.
  unfold extract_and_rename, rename_with.
  destruct extraction as [data|]; [|by intros [= <- <-]].
  destruct (_ && _); [by intros [= <- <-]|].
  destruct (_metadata_all_empty _); [by intros [= <- <-]|].
  destruct (build_new_filename _ _ _) as [new_name|]; [|by intros [= <- <-]].
  destruct (String.eqb _ _); [by intros [= <- <-]|].
  destruct (resolve _ _ _ _ _) as [r|]; [|done].
  cbn [fmap option_fmap option_map].
  destruct (refused path r); [by intros [= <- <-]|].
  destruct r as [dst|existing|dst|]; cbn [commit];
    try destruct (os_replace fs path dst); by intros [= <- <-].
Qed.

(** C7: when the call of the validator fails (it raises, or its answer is
    not JSON, or is JSON without a usable member [ok]),
    [filename_already_formatted] is false, and the document goes on to the
    extraction of its metadata: what is decided for it is what the
    extraction and the rename decide, this is never that the name is
    formatted already, and an extraction that raises is reported as the
    failure of the document. *)
Theorem validator_failure_means_not_formatted `{Runtime} (cfg : settings)
    (reply : validator_reply) :
  validator_failed reply = true ->
  filename_already_formatted reply = false
  /\ forall fuel fs path is_book,
       (forall extraction,
          process_file cfg fuel fs path is_book reply extraction
          = extract_and_rename cfg fuel fs path is_book extraction)
       /\ (forall extraction d fs',
             process_file cfg fuel fs path is_book reply extraction
             = Some (d, fs') ->
             d <> AlreadyFormatted)
       /\ process_file cfg fuel fs path is_book reply None = Some (Failed, fs).
Proof.
  intros Hfailed.
  assert (Hcheck : filename_already_formatted reply = false).
  { destruct reply as [| |data]; [done|done|].
    destruct data as [|b|n|s|items|members]; try done.
    simpl in *. destruct (dict_get "ok" members) as [[]|]; done. }
  split; [done|]. intros fuel fs path is_book.
  unfold process_file. rewrite Hcheck. split; [done|]. split; [|done].
  intros extraction d fs'. apply extract_and_rename_decides.
Qed.

Lemma validator_failure_means_not_formatted_witness :
  filename_already_formatted (Parsed (JArray [JBool true])) = false
  /\ forall fuel fs path is_book,
       (forall extraction,
          @process_file fallback_runtime default_settings fuel fs path is_book
            (Parsed (JArray [JBool true])) extraction
          = @extract_and_rename fallback_runtime default_settings fuel fs path
              is_book extraction)
       /\ (forall extraction d fs',
             @process_file fallback_runtime default_settings fuel fs path
               is_book (Parsed (JArray [JBool true])) extraction
             = Some (d, fs') ->
             d <> AlreadyFormatted)
       /\ @process_file fallback_runtime default_settings fuel fs path is_book
            (Parsed (JArray [JBool true])) None
          = Some (Failed, fs).
Proof.
  apply (@validator_failure_means_not_formatted fallback_runtime
           default_settings (Parsed (JArray [JBool true]))).
  reflexivity.
Defined.

(** ** File names *)

Lemma append_cons c s t : String c s +:+ t = String c (s +:+ t).
Proof. reflexivity. Qed.

Lemma append_nil_l t : "" +:+ t = t.
Proof. reflexivity. Qed.

Lemma all_filter p s : Py.all p (Py.filter p s) = true.
Proof.
  induction s as [|c s IH]; [done|]. cbn [Py.filter].
  destruct (p c) eqn:Hp; [|done]. cbn [Py.all]. by rewrite Hp, IH.
Qed.

Lemma all_append p s t :
  Py.all p (s +:+ t) = Py.all p s && Py.all p t.
Proof.
  induction s as [|c s IH]; [done|].
  rewrite append_cons. cbn [Py.all]. by rewrite IH, andb_assoc.
Qed.

Lemma split_words s : Forall is_word (Py.split s).
Proof.
  induction s as [|c s IH]; [by constructor|]. cbn [Py.split].
  destruct (Py.isspace c) eqn:Hc; [done|].
  destruct (Py.starts_word s) eqn:Hs.
  - destruct (Py.split s) as [|w ws].
    + constructor; [|constructor]. split; [done|]. cbn. by rewrite Hc.
    + inversion IH as [|? ? [Hw1 Hw2] Hws]; subst.
      constructor; [|done]. split; [done|]. cbn [Py.all]. by rewrite Hc, Hw2.
  - constructor; [|done]. split; [done|]. cbn. by rewrite Hc.
Qed.

Lemma split_all p s :
  Py.all p s = true -> Forall (fun w => Py.all p w = true) (Py.split s).
Proof.
  induction s as [|c s IH]; [by constructor|]. cbn [Py.all Py.split].
  intros [Hc Hs]%andb_true_iff. specialize (IH Hs).
  destruct (Py.isspace c); [done|].
  destruct (Py.starts_word s).
  - destruct (Py.split s) as [|w ws].
    + constructor; [|constructor]. cbn. by rewrite Hc.
    + inversion IH; subst. constructor; [|done]. cbn. by rewrite Hc.
  - constructor; [|done]. cbn. by rewrite Hc.
Qed.

Lemma join_all p ws :
  p " "%char = true ->
  Forall (fun w => Py.all p w = true) ws ->
  Py.all p (Py.join " " ws) = true.
Proof.
  intros Hsp. induction 1 as [|w ws Hw Hws IH]; [done|]. cbn [Py.join].
  destruct ws as [|w' ws']; [done|].
  rewrite all_append, Hw. rewrite append_cons, append_nil_l.
  cbn [Py.all]. by rewrite Hsp, IH.
Qed.

Lemma word_starts w : is_word w -> Py.starts_blank w = false.
Proof.
  intros [Hne Hall]. destruct w as [|c w]; [done|].
  cbn in *. apply andb_true_iff in Hall as [Hc _].
  by apply negb_true_iff in Hc.
Qed.

Lemma word_tidy w : is_word w -> tidy w.
Proof.
  intros Hw. split; [by apply word_starts|]. destruct Hw as [_ Hall].
  induction w as [|c w IH]; [done|].
  cbn [Py.all] in Hall. apply andb_true_iff in Hall as [Hc Hall].
  apply negb_true_iff in Hc. specialize (IH Hall) as [IH1 IH2].
  cbn [Py.has_blank_run Py.ends_blank]. rewrite Hc, IH1.
  split; [done|]. by destruct w.
Qed.

(** A word before a blank and a tidy string that does not start with a
    blank. *)
Lemma word_blank_tidy w t :
  is_word w -> t <> "" -> tidy t -> tidy (w +:+ " " +:+ t).
Proof.
  intros Hw Ht (Ht1 & Ht2 & Ht3).
  split; [|split].
  - destruct Hw as [Hne Hall]. destruct w as [|c w]; [done|].
    rewrite append_cons. cbn in *.
    apply andb_true_iff in Hall as [Hc _]. by apply negb_true_iff in Hc.
  - destruct Hw as [_ Hall].
    induction w as [|c w IH].
    + rewrite append_nil_l, append_cons, append_nil_l.
      cbn [Py.has_blank_run]. by rewrite Ht1, Ht2, andb_false_r.
    + cbn [Py.all] in Hall. apply andb_true_iff in Hall as [Hc Hall].
      apply negb_true_iff in Hc. rewrite append_cons.
      cbn [Py.has_blank_run]. by rewrite Hc, (IH Hall).
  - destruct Hw as [_ Hall]. clear Hall.
    induction w as [|c w IH].
    + rewrite append_nil_l, append_cons, append_nil_l.
      cbn [Py.ends_blank]. by destruct t.
    + rewrite append_cons. cbn [Py.ends_blank].
      destruct (w +:+ " " +:+ t) eqn:Heq; [|done].
      destruct w; discriminate.
Qed.

Lemma join_nonempty ws : Forall is_word ws -> ws <> [] -> Py.join " " ws <> "".
Proof.
  intros Hws Hne. destruct Hws as [|w ws [Hw _] _]; [done|].
  cbn [Py.join]. destruct ws; [done|]. by destruct w.
Qed.

Lemma join_tidy ws : Forall is_word ws -> tidy (Py.join " " ws).
Proof.
  induction 1 as [|w ws Hw Hws IH]; [done|]. cbn [Py.join].
  destruct ws as [|w' ws']; [by apply word_tidy|].
  apply word_blank_tidy; [done| |done].
  by apply join_nonempty.
Qed.

Lemma lstrip_tidy s : Py.starts_blank s = false -> Py.lstrip_if Py.isspace s = s.
Proof. destruct s as [|c s]; [done|]. cbn. by intros ->. Qed.

Lemma rstrip_tidy s : Py.ends_blank s = false -> Py.rstrip_if Py.isspace s = s.
Proof.
  induction s as [|c s IH]; [done|]. cbn [Py.ends_blank Py.rstrip_if].
  destruct s as [|d s].
  - cbn. by intros ->.
  - intros Hend. by rewrite (IH Hend).
Qed.

Lemma strip_tidy s : tidy s -> Py.strip s = s.
Proof.
  intros (H1 & _ & H3). unfold Py.strip, Py.strip_if.
  rewrite (lstrip_tidy s H1). by apply rstrip_tidy.
Qed.

Lemma cleaned_name_is_clean (valid : ascii -> bool) (filename : string) :
  valid " "%char = true ->
  let name := Py.strip (Py.join " " (Py.split (Py.filter valid filename))) in
  Py.all valid name = true
  /\ Py.has_blank_run name = false
  /\ Py.starts_blank name = false
  /\ Py.ends_blank name = false.
Proof.
  intros Hsp name. subst name.
  pose proof (join_tidy _ (split_words (Py.filter valid filename))) as Htidy.
  rewrite (strip_tidy _ Htidy).
  destruct Htidy as (H1 & H2 & H3).
  split; [|done].
  apply join_all; [done|]. apply split_all. apply all_filter.
Qed.

(** C5: the name that [build_new_filename] returns has none of the nine
    reserved characters, has no two blanks in a row and has no blank at its
    start or at its end. *)
Theorem build_new_filename_is_clean `{Runtime} (cfg : settings)
    (meta : metadata) (is_book : bool) (name : string) :
  build_new_filename cfg meta is_book = Some name ->
  Py.all (fun c => negb (Py.mem_char c INVALID_FILENAME_CHARS)) name = true
  /\ Py.has_blank_run name = false
  /\ Py.starts_blank name = false
  /\ Py.ends_blank name = false.
Proof.
  unfold build_new_filename.
  destruct (str_format _ _ _ _ _) as [filename|]; [|done].
  intros Hname.
  pose proof (cleaned_name_is_clean
                (fun c => negb (Py.mem_char c INVALID_FILENAME_CHARS))
                filename eq_refl) as Hclean.
  cbv zeta in Hclean, Hname.
  congruence.
Qed.

Lemma build_new_filename_is_clean_witness :
  Py.all (fun c => negb (Py.mem_char c INVALID_FILENAME_CHARS))
    "Acm - 2020 - Doe - A Study Part 12.pdf" = true
  /\ Py.has_blank_run "Acm - 2020 - Doe - A Study Part 12.pdf" = false
  /\ Py.starts_blank "Acm - 2020 - Doe - A Study Part 12.pdf" = false
  /\ Py.ends_blank "Acm - 2020 - Doe - A Study Part 12.pdf" = false.
Proof.
  apply (@build_new_filename_is_clean fallback_runtime default_settings
           (@get_metadata_from_snippet fallback_runtime study) false).
  reflexivity.
Defined.

(** ** The collision loop *)

Section Loop.
Variables (fs : filesystem) (path dir_path base short ext : string).

Lemma candidate_path_shift dst counter i :
  candidate_path dir_path base short ext
    (Path.join dir_path (numbered_name base short ext counter)) (counter + 1) i
  = candidate_path dir_path base short ext dst counter (S i).
Proof.
  destruct i as [|j]; cbn [candidate_path].
  - by rewrite Nat.add_0_r.
  - by replace (counter + 1 + j) with (counter + S j) by lia.
Qed.

Lemma suffix_loop_step fuel dst counter :
  settles fs path dst = false ->
  suffix_loop (S fuel) fs path dir_path base short ext dst counter
  = suffix_loop fuel fs path dir_path base short ext
      (Path.join dir_path (numbered_name base short ext counter)) (counter + 1).
Proof.
  unfold settles. intros [Hex Hsame]%orb_false_iff.
  apply negb_false_iff in Hex. cbn [suffix_loop]. by rewrite Hex, Hsame.
Qed.

Lemma suffix_loop_settled fuel dst counter :
  settles fs path dst = true ->
  suffix_loop fuel fs path dir_path base short ext dst counter = Some dst.
Proof.
  unfold settles. intros Hs.
  destruct fuel; cbn [suffix_loop];
    destruct (path_exists fs dst); try done;
    cbn in Hs; by rewrite Hs.
Qed.

(** The loop leaves at the first candidate at which it can, once it may
    run that many times. *)
Lemma suffix_loop_first k : forall fuel dst counter,
  (forall i, i < k ->
     settles fs path (candidate_path dir_path base short ext dst counter i) = false) ->
  settles fs path (candidate_path dir_path base short ext dst counter k) = true ->
  k <= fuel ->
  suffix_loop fuel fs path dir_path base short ext dst counter
  = Some (candidate_path dir_path base short ext dst counter k).
Proof.
  induction k as [|k IH]; intros fuel dst counter Hbefore Hat Hfuel.
  - by apply suffix_loop_settled.
  - destruct fuel as [|fuel]; [lia|].
    rewrite suffix_loop_step by (apply (Hbefore 0); lia).
    rewrite <- (candidate_path_shift dst counter k).
    apply IH; [| |lia].
    + intros i Hi. rewrite (candidate_path_shift dst). apply Hbefore. lia.
    + by rewrite (candidate_path_shift dst).
Qed.

(** The loop is still running after [fuel] rounds when it could leave at
    none of the candidates up to then. *)
Lemma suffix_loop_running fuel : forall dst counter,
  (forall i, i <= fuel ->
     settles fs path (candidate_path dir_path base short ext dst counter i) = false) ->
  suffix_loop fuel fs path dir_path base short ext dst counter = None.
Proof.
  induction fuel as [|fuel IH]; intros dst counter Hnone.
  - specialize (Hnone 0 (Nat.le_refl 0)). cbn [candidate_path] in Hnone.
    unfold settles in Hnone. apply orb_false_iff in Hnone as [Hex Hsame].
    apply negb_false_iff in Hex. cbn [suffix_loop]. by rewrite Hex, Hsame.
  - rewrite suffix_loop_step by (apply (Hnone 0); lia).
    apply IH. intros i Hi. rewrite (candidate_path_shift dst). apply Hnone. lia.
Qed.

End Loop.

Lemma first_true (P : nat -> bool) (n : nat) :
  P n = true ->
  exists k, k <= n /\ P k = true /\ forall i, i < k -> P i = false.
Proof.
  induction n as [n IH] using lt_wf_ind. intros Hn.
  destruct (decide (Forall (fun i => P i = false) (seq 0 n))) as [Hall|Hsome].
  - exists n. split; [lia|]. split; [done|]. intros i Hi.
    rewrite Forall_forall in Hall. apply Hall. apply elem_of_seq. lia.
  - apply not_Forall_Exists in Hsome; [|apply _].
    apply Exists_exists in Hsome as (j & Hj & HPj).
    apply elem_of_seq in Hj. cbn in HPj.
    apply not_false_iff_true in HPj.
    destruct (IH j ltac:(lia) HPj) as (k & Hk & HPk & Hleast).
    exists k. split; [lia|]. done.
Qed.

(** ** Candidate names are pairwise distinct *)

Lemma length_append s t :
  String.length (s +:+ t) = String.length s + String.length t.
Proof.
  induction s as [|c s IH]; [done|]. rewrite append_cons. cbn. by rewrite IH.
Qed.

Lemma append_assoc s t u : (s +:+ t) +:+ u = s +:+ t +:+ u.
Proof.
  induction s as [|c s IH]; [done|]. rewrite !append_cons. by rewrite IH.
Qed.

Lemma append_inj_r t s1 s2 : s1 +:+ t = s2 +:+ t -> s1 = s2.
Proof.
  revert s2. induction s1 as [|c1 s1 IH]; intros [|c2 s2] Heq.
  - done.
  - apply (f_equal String.length) in Heq.
    rewrite append_nil_l, length_append in Heq. cbn in Heq. lia.
  - apply (f_equal String.length) in Heq.
    rewrite append_nil_l, length_append in Heq. cbn in Heq. lia.
  - rewrite !append_cons in Heq. injection Heq as -> Heq.
    by rewrite (IH s2 Heq).
Qed.

Lemma numbered_name_inj base short ext : Inj (=) (=) (numbered_name base short ext).
Proof.
  intros n1 n2 Heq. unfold numbered_name in Heq.
  do 4 apply String.app_inj in Heq.
  apply append_inj_r in Heq. by apply (inj pretty) in Heq.
Qed.

Lemma prefix_empty s : String.prefix "" s = true.
Proof. by destruct s. Qed.

Lemma numbered_name_prefix base short ext n1 n2 :
  String.prefix "/" (numbered_name base short ext n1)
  = String.prefix "/" (numbered_name base short ext n2).
Proof.
  unfold numbered_name. destruct base as [|c base]; [done|].
  rewrite !append_cons. cbn [String.prefix].
  destruct (ascii_dec "/" c); [|done]. by rewrite !prefix_empty.
Qed.

Lemma path_join_inj a b1 b2 :
  String.prefix "/" b1 = String.prefix "/" b2 ->
  Path.join a b1 = Path.join a b2 -> b1 = b2.
Proof.
  unfold Path.join. intros ->.
  destruct (String.prefix "/" b2); [done|].
  destruct (_ || _); intros Heq.
  - by apply String.app_inj in Heq.
  - by do 2 apply String.app_inj in Heq.
Qed.

Lemma numbered_path_inj dir_path base short ext :
  Inj (=) (=) (fun n => Path.join dir_path (numbered_name base short ext n)).
Proof.
  intros n1 n2 Heq. apply path_join_inj in Heq.
  - by apply numbered_name_inj in Heq.
  - apply numbered_name_prefix.
Qed.

(** Of [size m + 1] distinct paths a directory with [size m] entries
    misses one. *)
Lemma free_path (m : gmap string node) (f : nat -> string) :
  Inj (=) (=) f -> exists j, j <= size m /\ m !! f j = None.
Proof.
  intros Hinj.
  set (l := f <$> seq 0 (S (size m))).
  destruct (decide (Forall (fun p => is_Some (m !! p)) l)) as [Hall|Hsome].
  - exfalso.
    assert (Hsub : list_to_set (C := gset string) l ⊆ dom m).
    { intros p Hp. apply elem_of_list_to_set in Hp.
      apply elem_of_dom. rewrite Forall_forall in Hall. by apply Hall. }
    apply subseteq_size in Hsub.
    rewrite size_list_to_set in Hsub.
    + unfold l in Hsub. rewrite length_fmap, length_seq, size_dom in Hsub. lia.
    + apply NoDup_fmap_2; [done|]. apply NoDup_seq.
  - apply not_Forall_Exists in Hsome; [|apply _].
    apply Exists_exists in Hsome as (p & Hp & Hfree).
    apply list_elem_of_fmap in Hp as (j & -> & Hj).
    apply elem_of_seq in Hj. cbn in Hfree.
    exists j. split; [lia|].
    destruct (m !! f j) eqn:Hlook; [|done]. exfalso. apply Hfree. eauto.
Qed.

(** On a directory tree with finitely many entries there is a first
    candidate at which the loop can leave, among the first [size m + 2]. *)
Lemma first_settling_candidate (m : gmap string node)
    (path dir_path base short ext dst : string) (counter : nat) :
  exists k,
    k <= S (size m)
    /\ settles (tree m) path
         (candidate_path dir_path base short ext dst counter k) = true
    /\ forall i, i < k ->
         settles (tree m) path
           (candidate_path dir_path base short ext dst counter i) = false.
Proof.
  destruct (free_path m
              (fun j => Path.join dir_path (numbered_name base short ext (counter + j))))
    as (j & Hj & Hfree).
  { intros n1 n2 Heq. apply numbered_path_inj in Heq. lia. }
  destruct (first_true
              (fun i => settles (tree m) path
                          (candidate_path dir_path base short ext dst counter i))
              (S j)) as (k & Hk & Hat & Hbefore).
  { cbn [candidate_path]. unfold settles, path_exists, tree. by rewrite Hfree. }
  exists k. split; [lia|]. by split.
Qed.

(** C6, as the program has it. On a directory tree with finitely many
    entries the loop ends: it leaves at the first candidate that is free or
    holds the content of the document, and this candidate comes within
    [size m + 1] rounds. The loop has no bound of its own on its rounds:
    the number of rounds is a parameter of the statement only. *)
Theorem suffix_loop_terminates (m : gmap string node)
    (path dir_path base short ext dst : string) (counter : nat) :
  exists k,
    k <= S (size m)
    /\ settles (tree m) path
         (candidate_path dir_path base short ext dst counter k) = true
    /\ (forall i, i < k ->
          settles (tree m) path
            (candidate_path dir_path base short ext dst counter i) = false)
    /\ forall fuel, k <= fuel ->
         suffix_loop fuel (tree m) path dir_path base short ext dst counter
         = Some (candidate_path dir_path base short ext dst counter k).
Proof.
  destruct (first_settling_candidate m path dir_path base short ext dst counter)
    as (k & Hk & Hat & Hbefore).
  exists k. split; [done|]. split; [done|]. split; [done|].
  intros fuel Hfuel. by apply suffix_loop_first.
Qed.

Lemma crowded_settles_nowhere p :
  p <> "/d/in.pdf" -> settles crowded "/d/in.pdf" p = false.
Proof.
  intros Hp. apply String.eqb_neq in Hp.
  unfold settles, path_exists, _same_file, getsize, crowded.
  by rewrite Hp.
Qed.

Lemma crowded_candidates short dst counter i :
  dst = Path.join "/d" (hashed_name "X" short ".pdf") ->
  candidate_path "/d" "X" short ".pdf" dst counter i <> "/d/in.pdf".
Proof. intros ->. by destruct i. Qed.

Lemma resolve_running fuel fs path dir_path new_name base ext digest :
  settles fs path (Path.join dir_path new_name) = false ->
  Path.splitext new_name = (base, ext) ->
  _sha1_hex fs path = Some digest ->
  suffix_loop fuel fs path dir_path base (Py.take 8 digest) ext
    (Path.join dir_path (hashed_name base (Py.take 8 digest) ext)) 2 = None ->
  resolve fuel fs path dir_path new_name = None.
Proof.
  unfold settles. intros [Hex Hsame]%orb_false_iff Hsplit Hdigest Hloop.
  apply negb_false_iff in Hex. unfold resolve.
  by rewrite Hex, Hsame, Hsplit, Hdigest, Hloop.
Qed.

(** C6 fails as stated: the loop has no bound on its rounds and no failure
    for them. On the file system that answers that every path exists, with
    content other than the document's, the collision block is still running
    after any number of rounds. *)
Lemma collision_loop_has_no_bound :
  ~ exists fuel, resolve fuel crowded "/d/in.pdf" "/d" "X.pdf" <> None.
Proof.
  intros [fuel Hdone]. apply Hdone.
  apply (resolve_running fuel crowded "/d/in.pdf" "/d" "X.pdf" "X" ".pdf"
           (SHA1.hexdigest (bytes_of "A"))).
  - by apply crowded_settles_nowhere.
  - reflexivity.
  - reflexivity.
  - apply suffix_loop_running. intros i _.
    apply crowded_settles_nowhere. by apply crowded_candidates.
Qed.

(** ** Content comparison and the short digest *)

Lemma same_file_files fs a b content_a content_b :
  fs a = Some (File content_a) ->
  fs b = Some (File content_b) ->
  _same_file fs a b
  = Nat.eqb (length content_a) (length content_b)
    && String.eqb (SHA1.hexdigest content_a) (SHA1.hexdigest content_b).
Proof.
  intros Ha Hb. unfold _same_file, getsize, _sha1_hex. rewrite Ha, Hb.
  by destruct (Nat.eqb _ _).
Qed.

Lemma same_file_inv fs a b content_a :
  fs a = Some (File content_a) ->
  _same_file fs a b = true ->
  exists content_b,
    fs b = Some (File content_b)
    /\ length content_b = length content_a
    /\ SHA1.hexdigest content_b = SHA1.hexdigest content_a.
Proof.
  intros Ha. unfold _same_file, getsize, _sha1_hex. rewrite Ha.
  destruct (fs b) as [[content_b|size]|] eqn:Hb; [| |done].
  - destruct (Nat.eqb _ _) eqn:Hlen; [|done]. cbn [negb].
    intros Heq%String.eqb_eq. apply Nat.eqb_eq in Hlen.
    exists content_b. by repeat split.
  - by destruct (Nat.eqb _ _).
Qed.

Lemma take_append s t : Py.take (String.length s) (s +:+ t) = s.
Proof.
  induction s as [|c s IH]; [by destruct t|].
  rewrite append_cons. cbn. by rewrite IH.
Qed.

Lemma hex_word_length x : String.length (SHA1.hex_word x) = 8.
Proof. reflexivity. Qed.

Lemma hex_digit_is_hex z :
  (0 <= z < 16)%Z -> is_hex_digit (SHA1.hex_digit z) = true.
Proof.
  intros Hz.
  assert (Hcases : In z (map Z.of_nat (seq 0 16))).
  { apply in_map_iff. exists (Z.to_nat z). split; [lia|].
    apply in_seq. lia. }
  cbn in Hcases.
  repeat (destruct Hcases as [<-|Hcases]; [reflexivity|]). done.
Qed.

Lemma hex_word_is_hex x : Py.all is_hex_digit (SHA1.hex_word x) = true.
Proof.
  unfold SHA1.hex_word. cbn [fold_right seq Py.all].
  rewrite !hex_digit_is_hex by (apply Z.mod_pos_bound; lia). done.
Qed.

Lemma short_digest content :
  exists x, Py.take 8 (SHA1.hexdigest content) = SHA1.hex_word x.
Proof.
  unfold SHA1.hexdigest. cbv zeta. eexists.
  exact (take_append (SHA1.hex_word _) _).
Qed.

Lemma prefix_append s t : String.prefix s (s +:+ t) = true.
Proof.
  induction s as [|c s IH]; [apply prefix_empty|].
  rewrite append_cons. cbn [String.prefix].
  by destruct (ascii_dec c c).
Qed.

Lemma contains_append pre sub post :
  Py.contains sub (pre +:+ sub +:+ post) = true.
Proof.
  induction pre as [|c pre IH].
  - rewrite append_nil_l. destruct (sub +:+ post) eqn:Heq; cbn [Py.contains];
      rewrite <- Heq, prefix_append; done.
  - rewrite append_cons. cbn [Py.contains]. rewrite IH. apply orb_true_r.
Qed.

Lemma path_join_suffix a b : exists pre, Path.join a b = pre +:+ b.
Proof.
  unfold Path.join. destruct (String.prefix "/" b); [by exists ""|].
  destruct (_ || _); [by exists a|].
  exists (a +:+ "/"). by rewrite append_assoc.
Qed.

(** Every candidate of the collision block has the short digest in its
    name. *)
Lemma candidate_contains_short dir_path base short ext counter i :
  Py.contains short
    (candidate_path dir_path base short ext
       (Path.join dir_path (hashed_name base short ext)) counter i) = true.
Proof.
  destruct i as [|j]; cbn [candidate_path].
  - destruct (path_join_suffix dir_path (hashed_name base short ext)) as [pre ->].
    unfold hashed_name.
    rewrite <- (append_assoc pre), <- (append_assoc (pre +:+ base)).
    apply contains_append.
  - destruct (path_join_suffix dir_path
                (numbered_name base short ext (counter + j))) as [pre ->].
    unfold numbered_name.
    rewrite <- (append_assoc pre), <- (append_assoc (pre +:+ base)).
    apply contains_append.
Qed.

(** ** Collisions *)

(** C1, as the program has it, when the candidate destination exists.
    - When the existing file has the content of the document, the block ends
      in [Duplicate] and the rename is not made: the tree is left as it is.
    - When the digest of the existing file is not the digest of the
      document, the block ends at a candidate whose name holds the short
      digest, eight hexadecimal digits, of the document: either at a free
      path, with [Resolved], or at a path that holds a file with the size and
      the digest of the document, with [Duplicate]. *)
Theorem collision_outcomes (m : gmap string node)
    (path dir_path new_name : string) (content existing : list Byte.byte) :
  m !! path = Some (File content) ->
  m !! Path.join dir_path new_name = Some (File existing) ->
  (existing = content ->
   forall fuel,
     resolve fuel (tree m) path dir_path new_name
     = Some (Duplicate (Path.join dir_path new_name))
     /\ commit (tree m) path (Duplicate (Path.join dir_path new_name))
        = (DuplicateDetected path (Path.join dir_path new_name), tree m))
  /\ (SHA1.hexdigest existing <> SHA1.hexdigest content ->
      exists fuel dst,
        let short := Py.take 8 (SHA1.hexdigest content) in
        String.length short = 8
        /\ Py.all is_hex_digit short = true
        /\ Py.contains short dst = true
        /\ ((resolve fuel (tree m) path dir_path new_name = Some (Resolved dst)
             /\ m !! dst = None)
            \/ (resolve fuel (tree m) path dir_path new_name = Some (Duplicate dst)
                /\ exists copy,
                     m !! dst = Some (File copy)
                     /\ length copy = length content
                     /\ SHA1.hexdigest copy = SHA1.hexdigest content))).
Proof.
  intros Hpath Hdst.
  assert (Hexists : path_exists (tree m) (Path.join dir_path new_name) = true).
  { unfold path_exists, tree. by rewrite Hdst. }
  pose proof (same_file_files (tree m) path (Path.join dir_path new_name)
                content existing Hpath Hdst) as Hsame.
  split.
  - intros -> fuel. split; [|done].
    rewrite Nat.eqb_refl, String.eqb_refl in Hsame.
    unfold resolve. by rewrite Hexists, Hsame.
  - intros Hdigest.
    assert (Hdiffer : _same_file (tree m) path (Path.join dir_path new_name) = false).
    { rewrite Hsame. apply andb_false_iff. right.
      apply String.eqb_neq. congruence. }
    destruct (Path.splitext new_name) as [base ext] eqn:Hsplit.
    set (short := Py.take 8 (SHA1.hexdigest content)).
    destruct (first_settling_candidate m path dir_path base short ext
                (Path.join dir_path (hashed_name base short ext)) 2)
      as (k & _ & Hat & Hbefore).
    pose proof (suffix_loop_first (tree m) path dir_path base short ext k k
                  _ 2 Hbefore Hat (Nat.le_refl k)) as Hloop.
    clear Hbefore.
    set (dst := candidate_path dir_path base short ext
                  (Path.join dir_path (hashed_name base short ext)) 2 k) in *.
    assert (Hresolve :
      resolve k (tree m) path dir_path new_name
      = if path_exists (tree m) dst && _same_file (tree m) path dst
        then Some (Duplicate dst) else Some (Resolved dst)).
    { unfold resolve. rewrite Hexists, Hdiffer, Hsplit.
      unfold _sha1_hex at 1. unfold tree at 1. rewrite Hpath.
      fold short. by rewrite Hloop. }
    exists k, dst. cbv zeta. fold short.
    destruct (short_digest content) as [x Hx]. fold short in Hx.
    split; [by rewrite Hx|]. split; [rewrite Hx; apply hex_word_is_hex|].
    split; [apply candidate_contains_short|].
    rewrite Hresolve. unfold settles in Hat.
    destruct (path_exists (tree m) dst) eqn:Hex; cbn [negb orb andb] in *.
    + right. rewrite Hat. split; [done|].
      by apply (same_file_inv (tree m) path dst content).
    + left. split; [done|]. unfold path_exists, tree in Hex.
      by destruct (m !! dst).
Qed.

Lemma collision_outcomes_witness :
  (forall fuel,
     resolve fuel (tree twin_shelf) "/d/in.pdf" "/d" "X.pdf"
     = Some (Duplicate (Path.join "/d" "X.pdf"))
     /\ commit (tree twin_shelf) "/d/in.pdf" (Duplicate (Path.join "/d" "X.pdf"))
        = (DuplicateDetected "/d/in.pdf" (Path.join "/d" "X.pdf"), tree twin_shelf))
  /\ exists fuel dst,
       let short := Py.take 8 (SHA1.hexdigest (bytes_of "AAAA")) in
       String.length short = 8
       /\ Py.all is_hex_digit short = true
       /\ Py.contains short dst = true
       /\ ((resolve fuel (tree small_shelf) "/d/in.pdf" "/d" "X.pdf"
            = Some (Resolved dst)
            /\ small_shelf !! dst = None)
           \/ (resolve fuel (tree small_shelf) "/d/in.pdf" "/d" "X.pdf"
               = Some (Duplicate dst)
               /\ exists copy,
                    small_shelf !! dst = Some (File copy)
                    /\ length copy = length (bytes_of "AAAA")
                    /\ SHA1.hexdigest copy = SHA1.hexdigest (bytes_of "AAAA"))).
Proof.
  split.
  - apply (proj1 (collision_outcomes twin_shelf "/d/in.pdf" "/d" "X.pdf"
                    (bytes_of "AAAA") (bytes_of "AAAA") eq_refl eq_refl)).
    reflexivity.
  - apply (proj2 (collision_outcomes small_shelf "/d/in.pdf" "/d" "X.pdf"
                    (bytes_of "AAAA") (bytes_of "BBBB") eq_refl eq_refl)).
    intros Heq. vm_compute in Heq. discriminate.
Defined.

(** C1 fails as stated: [X.pdf] has the size of the document and other
    content, and the block ends in [Duplicate], not in [Resolved], because
    the name with the short digest is taken by a copy of the document. *)
Lemma equal_size_other_content_can_be_duplicate :
  shelf !! "/d/in.pdf" = Some (File (bytes_of "AAAA"))
  /\ shelf !! Path.join "/d" "X.pdf" = Some (File (bytes_of "BBBB"))
  /\ length (bytes_of "AAAA") = length (bytes_of "BBBB")
  /\ bytes_of "AAAA" <> bytes_of "BBBB"
  /\ forall fuel,
       resolve fuel (tree shelf) "/d/in.pdf" "/d" "X.pdf"
       = Some (Duplicate "/d/X [e2512172].pdf").
Proof.
  split; [by vm_compute|]. split; [by vm_compute|]. split; [done|].
  split; [done|]. intros [|fuel]; by vm_compute.
Qed.

(** ** The clean-up of a render *)









Lemma rstrip_head p q s :
  head_in q (Py.rstrip_if p s) = true -> head_in q s = true.
Proof.
  destruct s as [|c s]; [done|]. cbn [Py.rstrip_if].
  destruct (Py.rstrip_if p s); [destruct (p c)|]; done.
Qed.









Lemma lstrip_head p s : head_in p (Py.lstrip_if p s) = false.
Proof.
  induction s as [|c s IH]; [done|]. cbn [Py.lstrip_if].
  destruct (p c) eqn:Hc; [done|]. cbn. by rewrite Hc.
Qed.

Lemma rstrip_last p s : last_in p (Py.rstrip_if p s) = false.
Proof.
  induction s as [|c s IH]; [done|]. cbn [Py.rstrip_if].
  destruct (Py.rstrip_if p s) as [|d r].
  - destruct (p c) eqn:Hc; [done|]. cbn. by rewrite Hc.
  - done.
Qed.

(** The strings that the steps of the clean-up leave as they are. *)
Lemma spaced_sub_blanks s : spaced s = true -> Py.sub_blanks s = s.
Proof.
  induction s as [|c s IH]; [done|]. cbn [spaced Py.sub_blanks].
  intros [Hc Hs]%andb_true_iff. rewrite (IH Hs).
  destruct (Py.isspace c); [|done].
  apply andb_true_iff in Hc as [Hspace Hnext].
  apply Ascii.eqb_eq in Hspace as ->.
  by apply negb_true_iff in Hnext as ->.
Qed.

Lemma no_blanks_before_fixed x s :
  no_blanks_before x s = true -> Py.sub_blanks_before x s = s.
Proof.
  unfold no_blanks_before.
  induction s as [|c s IH]; [done|]. cbn [no_match Py.sub_blanks_before].
  intros [Hc Hs]%andb_true_iff. rewrite (IH Hs).
  by apply negb_true_iff in Hc as ->.
Qed.

Lemma no_pair_fixed a b repl s :
  no_pair a b s = true -> Py.sub_pair a b repl s = s.
Proof.
  unfold no_pair, Py.sub_pair.
  induction s as [|c s IH]; [done|]. cbn [no_match Py.sub_pair_from].
  intros [Hc Hs]%andb_true_iff. rewrite (IH Hs).
  by apply negb_true_iff in Hc as ->.
Qed.

Lemma lstrip_fixed p s : head_in p s = false -> Py.lstrip_if p s = s.
Proof. destruct s as [|c s]; [done|]. cbn. by intros ->. Qed.

Lemma rstrip_fixed p s : last_in p s = false -> Py.rstrip_if p s = s.
Proof.
  induction s as [|c s IH]; [done|]. cbn [last_in Py.rstrip_if].
  destruct s as [|d s].
  - cbn. by intros ->.
  - intros Hlast. by rewrite (IH Hlast).
Qed.

(** In a spaced string every blank is a space: an end that is neither a
    space nor a comma is not a blank. *)
Lemma spaced_head s :
  spaced s = true -> head_in (fun c => Py.mem_char c " ,") s = false ->
  head_in Py.isspace s = false.
Proof.
  destruct s as [|c s]; [done|]. cbn [spaced head_in].
  intros [Hc _]%andb_true_iff. destruct (Py.isspace c); [|done].
  apply andb_true_iff in Hc as [Hspace _].
  by apply Ascii.eqb_eq in Hspace as ->.
Qed.

Lemma spaced_last s :
  spaced s = true -> last_in (fun c => Py.mem_char c " ,") s = false ->
  last_in Py.isspace s = false.
Proof.
  induction s as [|c s IH]; [done|]. cbn [spaced last_in].
  intros [Hc Hs]%andb_true_iff. destruct s as [|d s]; [|by apply IH].
  destruct (Py.isspace c); [|done].
  apply andb_true_iff in Hc as [Hspace _].
  by apply Ascii.eqb_eq in Hspace as ->.
Qed.

Lemma settled_cleanup s : settled s = true -> cleanup s = s.
Proof.
  unfold settled. rewrite !andb_true_iff, !negb_true_iff.
  intros [[[[[[Hspaced Hcomma] Hcommas] Hparens] Hperiod] Hhead] Hlast].
  unfold cleanup. rewrite (spaced_sub_blanks s Hspaced).
  unfold Py.strip, Py.strip_chars, Py.strip_if.
  rewrite (lstrip_fixed Py.isspace s (spaced_head s Hspaced Hhead)).
  rewrite (rstrip_fixed Py.isspace s (spaced_last s Hspaced Hlast)).
  rewrite (no_blanks_before_fixed "," s Hcomma).
  rewrite (no_pair_fixed "," "," "," s Hcommas).
  rewrite (no_pair_fixed "(" ")" "" s Hparens).
  rewrite (no_blanks_before_fixed "." s Hperiod).
  rewrite (lstrip_fixed _ s Hhead). by apply rstrip_fixed.
Qed.




(** ** One document and the files *)

(** Where the loop leaves, it can leave, and it leaves at one of its
    candidates. *)
Lemma suffix_loop_settles fuel :
  forall fs path dir_path base short ext dst counter found,
  suffix_loop fuel fs path dir_path base short ext dst counter = Some found ->
  settles fs path found = true
  /\ exists i, found = candidate_path dir_path base short ext dst counter i.
Proof.
  induction fuel as [|fuel IH];
    intros fs path dir_path base short ext dst counter found;
    cbn [suffix_loop].
  - destruct (path_exists fs dst) eqn:Hex;
      [destruct (_same_file fs path dst) eqn:Hsame; [|done]|];
      intros [= <-]; unfold settles; rewrite Hex, ?Hsame;
      (split; [done|by exists 0]).
  - destruct (path_exists fs dst) eqn:Hex;
      [destruct (_same_file fs path dst) eqn:Hsame|].
    + intros [= <-]. unfold settles. rewrite Hex, Hsame.
      split; [done|by exists 0].
    + intros Hloop. apply IH in Hloop as [Hsettles [i ->]].
      split; [done|]. exists (S i).
      apply candidate_path_shift.
    + intros [= <-]. unfold settles. rewrite Hex.
      split; [done|by exists 0].
Qed.

Lemma path_exists_false fs p : path_exists fs p = false -> fs p = None.
Proof. unfold path_exists. by destruct (fs p). Qed.

(** The collision block ends at a free path, at a file with the content of
    the document, or with the exception of [_sha1_hex]. *)
Lemma resolve_target fuel fs path dir_path new_name r :
  resolve fuel fs path dir_path new_name = Some r ->
  match r with
  | NoCollision dst | Resolved dst => fs dst = None
  | Duplicate existing => _same_file fs path existing = true
  | Raised => _sha1_hex fs path = None
  end.
Proof.
  unfold resolve.
  destruct (path_exists fs (Path.join dir_path new_name)) eqn:Hex.
  - destruct (_same_file fs path (Path.join dir_path new_name)) eqn:Hsame;
      [by intros [= <-]|].
    destruct (Path.splitext new_name) as [base ext].
    destruct (_sha1_hex fs path) as [digest|] eqn:Hdigest; [|by intros [= <-]].
    destruct (suffix_loop _ _ _ _ _ _ _ _ _) as [found|] eqn:Hloop; [|done].
    apply suffix_loop_settles in Hloop as [Hsettles _].
    unfold settles in Hsettles.
    destruct (path_exists fs found) eqn:Hfound; cbn [negb orb andb] in *.
    + rewrite Hsettles. by intros [= <-].
    + intros [= <-]. by apply path_exists_false.
  - intros [= <-]. by apply path_exists_false.
Qed.

Lemma commit_effect fs path r d fs' :
  match r with
  | NoCollision dst | Resolved dst => fs dst = None
  | _ => True
  end ->
  commit fs path r = (d, fs') -> effect_of fs path d fs'.
Proof.
  assert (Hmove : forall dst,
            fs dst = None ->
            (match os_replace fs path dst with
             | Some fs' => (Renamed path dst, fs')
             | None => (Failed, fs)
             end) = (d, fs') -> effect_of fs path d fs').
  { intros dst Hfree. unfold os_replace.
    destruct (fs path) as [n|] eqn:Hpath; intros [= <- <-]; [|done].
    assert (Hne : String.eqb path dst = false).
    { apply String.eqb_neq. intros ->. congruence. }
    cbn [effect_of]. rewrite Hpath, String.eqb_refl, Hne, String.eqb_refl.
    repeat split; try done.
    intros p Hp Hdst.
    apply String.eqb_neq in Hp, Hdst. by rewrite Hdst, Hp. }
  destruct r as [dst|existing|dst|]; cbn [commit]; intros Hfree.
  - by apply Hmove.
  - by intros [= <- <-].
  - by apply Hmove.
  - by intros [= <- <-].
Qed.

Lemma process_file_effect `{Runtime} (cfg : settings) fuel fs path is_book
    reply extraction d fs' :
  process_file cfg fuel fs path is_book reply extraction = Some (d, fs') ->
  effect_of fs path d fs'.
Proof.
  unfold process_file, extract_and_rename, rename_with.
  destruct (filename_already_formatted reply); [by intros [= <- <-]|].
  destruct extraction as [data|]; [|by intros [= <- <-]].
  destruct (_ && _); [by intros [= <- <-]|].
  destruct (_metadata_all_empty _); [by intros [= <- <-]|].
  destruct (build_new_filename _ _ _) as [new_name|]; [|by intros [= <- <-]].
  destruct (String.eqb _ _); [by intros [= <- <-]|].
  destruct (resolve _ _ _ _ _) as [r|] eqn:Hresolve; [|done].
  cbn [fmap option_fmap option_map].
  destruct (refused path r); [by intros [= <- <-]|]. intros [= Hcommit].
  apply resolve_target in Hresolve.
  apply (commit_effect fs path r); [|done].
  by destruct r.
Qed.

(** X1: processing a document never overwrites and never loses a file.
    Every path other than the document's that holds something holds the
    same afterwards; whatever a path holds afterwards it held before, or it
    is the document, moved to a path that was free; and the document is
    where it was, or at the target of the rename and no more at its old
    path. *)
Theorem process_file_keeps_the_files `{Runtime} (cfg : settings)
    (fuel : nat) (fs : filesystem) (path : string) (is_book : bool)
    (reply : validator_reply) (extraction : option raw_metadata)
    (d : decision) (fs' : filesystem) :
  process_file cfg fuel fs path is_book reply extraction = Some (d, fs') ->
  (forall p, p <> path -> fs p <> None -> fs' p = fs p)
  /\ (forall p, fs' p <> None ->
        fs' p = fs p
        \/ (fs p = None /\ fs' p = fs path /\ d = Renamed path p))
  /\ (fs' path = fs path
      \/ exists target,
           d = Renamed path target /\ fs' path = None
           /\ fs' target = fs path).
Proof.
  intros Hrun. apply process_file_effect in Hrun.
  destruct d as [|reason|source target|source existing|];
    cbn [effect_of] in Hrun; try (subst fs'; by repeat split; auto).
  destruct Hrun as (-> & Hfree & Hpath & Htarget & Hgone & Hrest).
  split; [|split].
  - intros p Hp Hsome. apply Hrest; [done|]. intros ->. done.
  - intros p Hsome.
    destruct (decide (p = target)) as [->|Hne]; [by right|].
    destruct (decide (p = path)) as [->|Hne']; [by rewrite Hgone in Hsome|].
    left. by apply Hrest.
  - right. by exists target.
Qed.

Lemma process_file_keeps_the_files_witness :
  (if String.eqb "/d/X.pdf" "/d/Acm - 2020 - Doe - A Study Part 12.pdf"
   then Some (File (bytes_of "AAAA"))
   else if String.eqb "/d/X.pdf" "/d/in.pdf" then None
   else tree small_shelf "/d/X.pdf")
  = tree small_shelf "/d/X.pdf".
Proof.
  destruct (process_file_keeps_the_files (H := fallback_runtime)
              default_settings 0 (tree small_shelf) "/d/in.pdf" false
              (Parsed (JObject [("ok", JBool false)])) (Some study)
              (Renamed "/d/in.pdf" "/d/Acm - 2020 - Doe - A Study Part 12.pdf")
              (fun p =>
                 if String.eqb p "/d/Acm - 2020 - Doe - A Study Part 12.pdf"
                 then Some (File (bytes_of "AAAA"))
                 else if String.eqb p "/d/in.pdf" then None
                 else tree small_shelf p))
    as [Hkeep _]; [reflexivity|].
  apply (Hkeep "/d/X.pdf"); discriminate.
Defined.

(** On a directory tree with finitely many entries the collision block
    returns, with one result for all numbers of rounds from [size m + 1]
    on. *)
Lemma resolve_returns (m : gmap string node) path dir_path new_name :
  exists r, forall fuel,
    S (size m) <= fuel ->
    resolve fuel (tree m) path dir_path new_name = Some r.
Proof.
  unfold resolve.
  destruct (path_exists (tree m) (Path.join dir_path new_name));
    [|by eexists].
  destruct (_same_file (tree m) path (Path.join dir_path new_name));
    [by eexists|].
  destruct (Path.splitext new_name) as [base ext].
  destruct (_sha1_hex (tree m) path) as [digest|]; [|by eexists].
  destruct (first_settling_candidate m path dir_path base (Py.take 8 digest)
              ext (Path.join dir_path (hashed_name base (Py.take 8 digest) ext))
              2) as (k & Hk & Hat & Hbefore).
  set (found := candidate_path dir_path base (Py.take 8 digest) ext
                  (Path.join dir_path (hashed_name base (Py.take 8 digest) ext))
                  2 k) in *.
  destruct (path_exists (tree m) found && _same_file (tree m) path found)
    eqn:Hfound; eexists; intros fuel Hfuel;
    rewrite (suffix_loop_first (tree m) path dir_path base _ ext k fuel _ 2
               Hbefore Hat) by lia;
    fold found; by rewrite Hfound.
Qed.

(** X2: on a directory tree with finitely many entries the processing of a
    document ends, whatever the validator and the model answer: from
    [size m + 1] rounds of the collision loop on it returns, and it returns
    one decision and one state of the files. *)
Theorem process_file_returns `{Runtime} (cfg : settings)
    (m : gmap string node) (path : string) (is_book : bool)
    (reply : validator_reply) (extraction : option raw_metadata) :
  exists d fs', forall fuel,
    size m < fuel ->
    process_file cfg fuel (tree m) path is_book reply extraction
    = Some (d, fs').
Proof.
  unfold process_file, extract_and_rename, rename_with.
  destruct (filename_already_formatted reply); [by eexists _, _|].
  destruct extraction as [data|]; [|by eexists _, _].
  destruct (_ && _); [by eexists _, _|].
  destruct (_metadata_all_empty _); [by eexists _, _|].
  destruct (build_new_filename _ _ _) as [new_name|]; [|by eexists _, _].
  destruct (String.eqb _ _); [by eexists _, _|].
  destruct (resolve_returns m path (Path.dirname path) new_name) as [r Hr].
  destruct (if refused path r then (Failed, tree m) else commit (tree m) path r)
    as [d fs'] eqn:Hcommit.
  exists d, fs'. intros fuel Hfuel.
  rewrite Hr by lia. cbn [fmap option_fmap option_map]. by rewrite Hcommit.
Qed.

(** ** A run and the files *)

Lemma process_turns_keeps `{Runtime} (g : globals) fuel is_book turns :
  forall fs log fs',
  process_turns g fuel fs is_book turns = Some (log, fs') ->
  (forall p n, fs p = Some n -> exists p', fs' p' = Some n)
  /\ (forall p n, p ∉ map turn_path turns -> fs p = Some n -> fs' p = Some n).
Proof.
  induction turns as [|t rest IH]; intros fs log fs'; cbn [process_turns].
  - intros [= <- <-]. split; eauto.
  - destruct (stop_is_set t); [intros [= <- <-]; split; eauto|].
    destruct (process_file _ _ _ _ _ _ _) as [[d fs1]|] eqn:Hstep; [|done].
    destruct (process_turns _ _ _ _ _) as [[log' fs2]|] eqn:Hrest; [|done].
    intros [= <- <-]. apply IH in Hrest as [Hall Hother].
    apply process_file_effect in Hstep.
    assert (Hone : forall p n, fs p = Some n ->
              (p <> turn_path t -> fs1 p = Some n)
              /\ exists p', fs1 p' = Some n).
    { intros p n Hp.
      destruct d as [|reason|source target|source existing|];
        cbn [effect_of] in Hstep; try (subst fs1; by eauto).
      destruct Hstep as (-> & Hfree & Hpath & Htarget & Hgone & Hkeep).
      assert (Hmoved : p <> turn_path t -> fs1 p = Some n).
      { intros Hne. rewrite Hkeep; [done|done|]. intros ->. congruence. }
      split; [done|].
      destruct (decide (p = turn_path t)) as [->|Hne].
      - exists target. by rewrite Htarget.
      - exists p. by apply Hmoved. }
    split.
    + intros p n Hp. destruct (Hone p n Hp) as [_ [p' Hp']]. by eapply Hall.
    + intros p n Hnot Hp. cbn [map] in Hnot.
      apply not_elem_of_cons in Hnot as [Hne Hnot].
      apply Hother; [done|]. by apply (Hone p n Hp).
Qed.

(** X3: a run of [process_list] never loses a file. Without a key nothing
    is processed. With one, whatever the files held before the run some
    path holds after it, and the paths that are not in the list hold what
    they held. *)
Theorem process_list_keeps_the_files `{Runtime} (g : globals) (fuel : nat)
    (fs : filesystem) (turns : list turn) (is_book stop_at_end : bool)
    (outcome : run) :
  process_list g fuel fs turns is_book stop_at_end = Some outcome ->
  match outcome with
  | KeyRequired => API_KEY g = ""
  | Ran log fs' =>
      API_KEY g <> ""
      /\ (forall p n, fs p = Some n -> exists p', fs' p' = Some n)
      /\ (forall p n, p ∉ map turn_path turns -> fs p = Some n ->
            fs' p = Some n)
  end.
Proof.
  unfold process_list.
  destruct (nonempty (API_KEY g)) eqn:Hkey; cbn [negb].
  - destruct (process_turns _ _ _ _ _) as [[log fs']|] eqn:Hturns; [|done].
    intros [= <-]. split.
    + intros Hempty. apply nonempty_false in Hempty. congruence.
    + by apply (process_turns_keeps g fuel is_book turns fs log).
  - intros [= <-]. by apply nonempty_false.
Qed.

Lemma process_list_keeps_the_files_witness :
  (if String.eqb "/d/X.pdf" "/d/Acm - 2020 - Doe - A Study Part 12.pdf"
   then Some (File (bytes_of "AAAA"))
   else if String.eqb "/d/X.pdf" "/d/in.pdf" then None
   else tree small_shelf "/d/X.pdf")
  = Some (File (bytes_of "BBBB")).
Proof.
  destruct (process_list_keeps_the_files (H := fallback_runtime)
              example_globals 0 (tree small_shelf) [study_turn] false false
              (Ran [Processed "/d/in.pdf"
                      (Renamed "/d/in.pdf"
                         "/d/Acm - 2020 - Doe - A Study Part 12.pdf");
                    Done]
                 (fun p =>
                    if String.eqb p "/d/Acm - 2020 - Doe - A Study Part 12.pdf"
                    then Some (File (bytes_of "AAAA"))
                    else if String.eqb p "/d/in.pdf" then None
                    else tree small_shelf p)))
    as (_ & _ & Hkeep); [reflexivity|].
  apply (Hkeep "/d/X.pdf" (File (bytes_of "BBBB"))); [|reflexivity].
  cbn [map turn_path study_turn]. intros Hin.
  apply elem_of_cons in Hin as [Hin|Hin]; [discriminate|].
  by apply elem_of_nil in Hin.
Defined.

(** ** The comparison of two files *)

(** X4: [_same_file] is symmetric and transitive, it holds of a path and
    itself exactly when the path is a file that can be read, and it is
    false, with no exception, as soon as one of the paths is not such a
    file. *)
Theorem same_file_is_a_partial_equivalence (fs : filesystem) (a b c : string) :
  _same_file fs a b = _same_file fs b a
  /\ (_same_file fs a b = true -> _same_file fs b c = true ->
      _same_file fs a c = true)
  /\ (_same_file fs a a = true <-> exists content, fs a = Some (File content))
  /\ ((forall content, fs a <> Some (File content)) ->
      _same_file fs a b = false /\ _same_file fs b a = false).
Proof.
  assert (Hnot : forall x y,
            (forall content, fs x <> Some (File content)) ->
            _same_file fs x y = false /\ _same_file fs y x = false).
  { intros x y Hno. unfold _same_file, getsize, _sha1_hex.
    destruct (fs x) as [[content_x|size_x]|] eqn:Hx.
    - by destruct (Hno content_x).
    - destruct (fs y) as [[content_y|size_y]|]; split; try done;
        by destruct (Nat.eqb _ _).
    - destruct (fs y) as [[content_y|size_y]|]; by split. }
  split; [|split; [|split]].
  - destruct (fs a) as [[content_a|size_a]|] eqn:Ha.
    + destruct (fs b) as [[content_b|size_b]|] eqn:Hb.
      * rewrite (same_file_files fs a b content_a content_b Ha Hb).
        rewrite (same_file_files fs b a content_b content_a Hb Ha).
        by rewrite Nat.eqb_sym, String.eqb_sym.
      * destruct (Hnot b a) as [-> ->]; [|done]. intros content. congruence.
      * destruct (Hnot b a) as [-> ->]; [|done]. intros content. congruence.
    + destruct (Hnot a b) as [-> ->]; [|done]. intros content. congruence.
    + destruct (Hnot a b) as [-> ->]; [|done]. intros content. congruence.
  - intros Hab Hbc.
    destruct (fs a) as [[content_a|size_a]|] eqn:Ha.
    + destruct (same_file_inv fs a b content_a Ha Hab)
        as (content_b & Hb & Hlen_b & Hdigest_b).
      destruct (same_file_inv fs b c content_b Hb Hbc)
        as (content_c & Hc & Hlen_c & Hdigest_c).
      rewrite (same_file_files fs a c content_a content_c Ha Hc).
      rewrite Hlen_c, Hlen_b, Nat.eqb_refl, Hdigest_c, Hdigest_b.
      apply String.eqb_refl.
    + destruct (Hnot a b) as [Hfalse _]; [|congruence].
      intros content. congruence.
    + destruct (Hnot a b) as [Hfalse _]; [|congruence].
      intros content. congruence.
  - split.
    + intros Haa. destruct (fs a) as [[content_a|size_a]|] eqn:Ha.
      * by exists content_a.
      * destruct (Hnot a a) as [Hfalse _]; [|congruence].
        intros content. congruence.
      * destruct (Hnot a a) as [Hfalse _]; [|congruence].
        intros content. congruence.
    + intros [content Ha].
      rewrite (same_file_files fs a a content content Ha Ha).
      by rewrite Nat.eqb_refl, String.eqb_refl.
  - apply Hnot.
Qed.

Lemma same_file_is_a_partial_equivalence_witness :
  _same_file (tree twin_shelf) "/d/in.pdf" "/d/X.pdf" = true.
Proof.
  destruct (same_file_is_a_partial_equivalence (tree twin_shelf)
              "/d/in.pdf" "/d/in.pdf" "/d/X.pdf") as (_ & Htrans & _).
  apply Htrans; by vm_compute.
Defined.

(** ** Paths *)

Lemma append_nil_r s : s +:+ "" = s.
Proof. induction s as [|c s IH]; [done|]. by rewrite append_cons, IH. Qed.

Lemma mem_char_append c s t :
  Py.mem_char c (s +:+ t) = Py.mem_char c s || Py.mem_char c t.
Proof.
  induction s as [|d s IH]; [done|]. rewrite append_cons. cbn [Py.mem_char].
  by destruct (Ascii.eqb c d).
Qed.

Lemma head_tail_part p : Path.head_part p +:+ Path.tail_part p = p.
Proof.
  induction p as [|c p IH]; [done|]. cbn [Path.head_part Path.tail_part].
  destruct (Path.has_slash p).
  - by rewrite append_cons, IH.
  - destruct (Ascii.eqb c "/") eqn:Hc; [|done].
    apply Ascii.eqb_eq in Hc as ->. done.
Qed.

(** The extension that [splitext] cuts is empty, or it is a dot and
    characters that are not dots; and the two parts make the name. *)
Lemma cut_last_dot_parts name root ext :
  Path.cut_last_dot name = (root, ext) ->
  root +:+ ext = name
  /\ (ext = "" \/ exists e, ext = String "." e /\ Py.mem_char "." e = false).
Proof.
  revert root ext. induction name as [|c name IH]; intros root ext.
  - intros [= <- <-]. split; [done|by left].
  - cbn [Path.cut_last_dot]. destruct (Py.mem_char "." name) eqn:Hdot.
    + destruct (Path.cut_last_dot name) as [root' ext'].
      intros [= <- <-]. destruct (IH root' ext' eq_refl) as [Happ Hext].
      split; [by rewrite append_cons, Happ|done].
    + destruct (Ascii.eqb c ".") eqn:Hc; intros [= <- <-].
      * apply Ascii.eqb_eq in Hc as ->. split; [done|]. right. by exists name.
      * split; [apply append_nil_r|by left].
Qed.

Lemma splitext_parts p base ext :
  Path.splitext p = (base, ext) ->
  base +:+ ext = p
  /\ (ext = "" \/ exists e, ext = String "." e /\ Py.mem_char "." e = false).
Proof.
  unfold Path.splitext.
  destruct (Path.cut_last_dot (Path.tail_part p)) as [root ext'] eqn:Hcut.
  apply cut_last_dot_parts in Hcut as [Happ Hext].
  destruct (_ && _); intros [= <- <-].
  - split; [|done]. by rewrite append_assoc, Happ, head_tail_part.
  - split; [apply append_nil_r|by left].
Qed.

(** X5: the name that the collision block gives to a document is the new
    name with a tag in square brackets put before its extension: the tag is
    the short digest of the document, or the short digest, a dash and a
    number from 2 on; the extension is what [splitext] cuts, nothing or one
    dot and what follows it. *)
Theorem resolved_name_has_the_tag_before_the_extension (fuel : nat)
    (fs : filesystem) (path dir_path new_name dst : string) :
  resolve fuel fs path dir_path new_name = Some (Resolved dst) ->
  exists base ext digest tag,
    base +:+ ext = new_name
    /\ (ext = "" \/ exists e, ext = String "." e /\ Py.mem_char "." e = false)
    /\ _sha1_hex fs path = Some digest
    /\ (tag = Py.take 8 digest
        \/ exists n, 2 <= n /\ tag = Py.take 8 digest +:+ "-" +:+ pretty n)
    /\ dst = Path.join dir_path (base +:+ " [" +:+ tag +:+ "]" +:+ ext).
Proof.
  unfold resolve.
  destruct (path_exists fs (Path.join dir_path new_name)); [|done].
  destruct (_same_file fs path (Path.join dir_path new_name)); [done|].
  destruct (Path.splitext new_name) as [base ext] eqn:Hsplit.
  apply splitext_parts in Hsplit as [Happ Hext].
  destruct (_sha1_hex fs path) as [digest|]; [|done].
  destruct (suffix_loop _ _ _ _ _ _ _ _ _) as [found|] eqn:Hloop; [|done].
  apply suffix_loop_settles in Hloop as [_ [i ->]].
  destruct (_ && _); [done|]. intros [= <-].
  exists base, ext, digest.
  destruct i as [|j]; cbn [candidate_path].
  - exists (Py.take 8 digest). repeat split; try done. by left.
  - exists (Py.take 8 digest +:+ "-" +:+ pretty (2 + j)).
    repeat split; try done.
    + right. exists (2 + j). split; [lia|done].
    + unfold numbered_name. by rewrite !append_assoc.
Qed.

Lemma resolved_name_has_the_tag_before_the_extension_witness :
  exists base ext digest tag,
    base +:+ ext = "X.pdf"
    /\ (ext = "" \/ exists e, ext = String "." e /\ Py.mem_char "." e = false)
    /\ _sha1_hex (tree small_shelf) "/d/in.pdf" = Some digest
    /\ (tag = Py.take 8 digest
        \/ exists n, 2 <= n /\ tag = Py.take 8 digest +:+ "-" +:+ pretty n)
    /\ "/d/X [e2512172].pdf"
       = Path.join "/d" (base +:+ " [" +:+ tag +:+ "]" +:+ ext).
Proof.
  apply (resolved_name_has_the_tag_before_the_extension 0 (tree small_shelf)
           "/d/in.pdf" "/d" "X.pdf" "/d/X [e2512172].pdf").
  by vm_compute.
Defined.

Lemma has_slash_prefix n : Path.has_slash n = false -> String.prefix "/" n = false.
Proof.
  destruct n as [|c n]; [done|]. unfold Path.has_slash. cbn [Py.mem_char String.prefix].
  destruct (Ascii.eqb "/" c) eqn:Hc; [done|]. intros _.
  destruct (ascii_dec "/" c) as [<-|]; [|done].
  by rewrite Ascii.eqb_refl in Hc.
Qed.

Lemma head_part_name n : Path.has_slash n = false -> Path.head_part n = "".
Proof.
  induction n as [|c n IH]; [done|]. unfold Path.has_slash in *.
  cbn [Py.mem_char Path.head_part]. unfold Path.has_slash.
  rewrite (Ascii.eqb_sym "/" c).
  destruct (Ascii.eqb c "/"); [done|]. by intros ->.
Qed.

Lemma head_part_slashes d n :
  Py.all Path.is_slash d = true -> Path.has_slash n = false ->
  Path.head_part (d +:+ n) = d.
Proof.
  intros Hd Hn. induction d as [|c d IH]; [by apply head_part_name|].
  cbn [Py.all] in Hd. apply andb_true_iff in Hd as [Hc Hd].
  rewrite append_cons. cbn [Path.head_part]. rewrite (IH Hd).
  unfold Path.is_slash in Hc. rewrite Hc.
  unfold Path.has_slash in *. rewrite mem_char_append, Hn, orb_false_r.
  destruct d as [|c' d]; [by apply Ascii.eqb_eq in Hc as ->|].
  cbn [Py.all] in Hd. apply andb_true_iff in Hd as [Hc' _].
  unfold Path.is_slash in Hc'. apply Ascii.eqb_eq in Hc' as ->. done.
Qed.

Lemma head_part_directory d n :
  Path.has_slash n = false -> Path.head_part (d +:+ "/" +:+ n) = d +:+ "/".
Proof.
  intros Hn. induction d as [|c d IH].
  - rewrite !append_nil_l.
    change ("/" +:+ n) with (String "/" n). cbn [Path.head_part]. by rewrite Hn.
  - rewrite !(append_cons c). cbn [Path.head_part]. rewrite IH.
    unfold Path.has_slash. rewrite mem_char_append.
    change ("/" +:+ n) with (String "/" n). cbn [Py.mem_char].
    by rewrite Ascii.eqb_refl, orb_true_r.
Qed.

Lemma all_rstrip p s :
  Py.all p (Py.rstrip_if p s) = true -> Py.all p s = true.
Proof.
  induction s as [|c s IH]; [done|]. cbn [Py.rstrip_if Py.all].
  destruct (Py.rstrip_if p s) as [|d r].
  - destruct (p c) eqn:Hc; [by rewrite IH|]. cbn [Py.all]. by rewrite Hc.
  - cbn [Py.all] in *. intros [-> Hr]%andb_true_iff. by apply IH.
Qed.

Lemma rstrip_snoc p s c :
  p c = true -> Py.rstrip_if p (s +:+ String c "") = Py.rstrip_if p s.
Proof.
  intros Hc. induction s as [|d s IH].
  - rewrite append_nil_l. cbn. by rewrite Hc.
  - rewrite append_cons. cbn [Py.rstrip_if]. by rewrite IH.
Qed.

(** The last character of a string that is not empty, as [Path.join] looks
    at it. *)
Lemma last_character p d :
  d <> "" ->
  Py.all p (String.substring (String.length d - 1) 1 d) = last_in p d.
Proof.
  induction d as [|c d IH]; [done|]. intros _.
  destruct d as [|c' d]; [cbn; by rewrite andb_true_r|].
  specialize (IH ltac:(done)). cbn [last_in].
  change (String.length (String c (String c' d)) - 1)
    with (S (String.length d)).
  cbn [String.substring].
  replace (String.length d) with (String.length (String c' d) - 1)
    by (cbn; lia).
  exact IH.
Qed.

Lemma all_last p d : d <> "" -> Py.all p d = true -> last_in p d = true.
Proof.
  induction d as [|c d IH]; [done|]. intros _. cbn [Py.all last_in].
  intros [Hc Hd]%andb_true_iff. destruct d as [|c' d]; [done|].
  by apply IH.
Qed.

(** The directory of a path is empty, or made of slashes, or it does not
    end with a slash. *)
Lemma dirname_shape p :
  Py.all Path.is_slash (Path.dirname p) = true
  \/ (Py.all Path.is_slash (Path.dirname p) = false
      /\ last_in Path.is_slash (Path.dirname p) = false).
Proof.
  unfold Path.dirname.
  destruct (nonempty (Path.head_part p)) eqn:Hne; cbn [andb].
  - destruct (Py.all Path.is_slash (Path.head_part p)) eqn:Hall; cbn [negb].
    + by left.
    + right. split; [|apply rstrip_last].
      destruct (Py.all Path.is_slash (Py.rstrip_if _ _)) eqn:Hr; [|done].
      apply all_rstrip in Hr. congruence.
  - apply nonempty_false in Hne as ->. by left.
Qed.

Lemma dirname_join d n :
  Path.has_slash n = false ->
  Py.all Path.is_slash d = true
  \/ (Py.all Path.is_slash d = false /\ last_in Path.is_slash d = false) ->
  Path.dirname (Path.join d n) = d.
Proof.
  intros Hn Hd. unfold Path.join. rewrite (has_slash_prefix n Hn).
  destruct (nonempty d) eqn:Hne; cbn [negb orb].
  - assert (Hd' : d <> "").
    { intros ->. done. }
    rewrite (last_character Path.is_slash d Hd').
    destruct Hd as [Hall|[Hall Hlast]].
    + rewrite (all_last _ d Hd' Hall). unfold Path.dirname.
      by rewrite (head_part_slashes d n Hall Hn), Hne, Hall.
    + rewrite Hlast. unfold Path.dirname.
      rewrite (head_part_directory d n Hn).
      assert (Hne' : nonempty (d +:+ "/") = true).
      { destruct d; [done|]. by rewrite append_cons. }
      rewrite Hne', all_append, Hall. cbn [andb negb].
      rewrite (rstrip_snoc Path.is_slash d "/" eq_refl).
      by apply rstrip_fixed.
  - apply nonempty_false in Hne as ->. rewrite append_nil_l.
    unfold Path.dirname. by rewrite (head_part_name n Hn).
Qed.

Lemma valid_name_has_no_slash name :
  Py.all (fun c => negb (Py.mem_char c INVALID_FILENAME_CHARS)) name = true ->
  Path.has_slash name = false.
Proof.
  unfold Path.has_slash.
  induction name as [|c name IH]; [done|]. cbn [Py.all Py.mem_char].
  intros [Hc Hname]%andb_true_iff. rewrite (IH Hname).
  destruct (Ascii.eqb "/" c) eqn:Hslash; [|done].
  apply Ascii.eqb_eq in Hslash as <-. done.
Qed.

(** X6: a document that has the name built from its metadata, in any
    directory, is skipped with the same name: the files are left as they
    are, whatever they hold. So the document that a rename has put at
    [Path.join (Path.dirname path) new_name] is not renamed again. *)
Theorem built_name_is_a_fixed_point `{Runtime} (cfg : settings) (fuel : nat)
    (fs : filesystem) (path : string) (is_book : bool) (meta : metadata)
    (new_name : string) :
  build_new_filename cfg meta is_book = Some new_name ->
  rename_with cfg fuel fs (Path.join (Path.dirname path) new_name) is_book meta
  = Some (Skipped SameName, fs).
Proof.
  intros Hname. unfold rename_with. rewrite Hname.
  assert (Hslash : Path.has_slash new_name = false).
  { apply valid_name_has_no_slash.
    unfold build_new_filename in Hname.
    destruct (str_format _ _ _ _ _) as [filename|]; [|done].
    injection Hname as <-.
    by apply (cleaned_name_is_clean
                (fun c => negb (Py.mem_char c INVALID_FILENAME_CHARS))). }
  rewrite (dirname_join (Path.dirname path) new_name Hslash (dirname_shape path)).
  by rewrite String.eqb_refl.
Qed.

Lemma built_name_is_a_fixed_point_witness :
  @rename_with fallback_runtime default_settings 0 (tree small_shelf)
    (Path.join (Path.dirname "/d/in.pdf")
       "Acm - 2020 - Doe - A Study Part 12.pdf")
    false (@get_metadata_from_snippet fallback_runtime study)
  = Some (Skipped SameName, tree small_shelf).
Proof.
  apply (built_name_is_a_fixed_point (H := fallback_runtime) default_settings
           0 (tree small_shelf) "/d/in.pdf" false
           (@get_metadata_from_snippet fallback_runtime study)).
  reflexivity.
Defined.

(** ** Answers in which the model has found nothing *)

Lemma strip_idempotent p s : Py.strip_if p (Py.strip_if p s) = Py.strip_if p s.
Proof.
  unfold Py.strip_if at 1.
  rewrite lstrip_fixed.
  - apply rstrip_fixed. apply rstrip_last.
  - unfold Py.strip_if.
    destruct (head_in p (Py.rstrip_if p (Py.lstrip_if p s))) eqn:Hhead; [|done].
    apply rstrip_head in Hhead. by rewrite lstrip_head in Hhead.
Qed.

Lemma elem_of_singleton_list (x y : string) : x ∈ [y] -> x = y.
Proof. intros Hx. apply elem_of_cons in Hx as [->|Hx]; [done|]. by apply elem_of_nil in Hx. Qed.

(** A value that is taken for none is normalised to the empty string. *)
Lemma unknown_name_normalised `{Runtime} (extra : string -> bool) (t : string) :
  unknown_name t || extra (Py.lower (Py.strip t)) = true ->
  (let title := Py.strip t in
   let title :=
     if is_in (Py.lower title) unknown_tokens || extra (Py.lower title)
     then "" else title in
   if nonempty title then titlecase title else "") = "".
Proof.
  unfold unknown_name. cbv zeta.
  destruct (nonempty (Py.strip t)) eqn:Hne; cbn [negb orb].
  - intros ->. done.
  - intros _. apply nonempty_false in Hne. rewrite Hne.
    by destruct (_ || _).
Qed.

Lemma no_year_normalised (y : option string) :
  from_option no_year true y = true ->
  is_in (Py.lower (Py.strip (normalize_year y)))
    [""; "n.d."; "nd"; "unknown"; "unknownyear"] = true.
Proof.
  destruct y as [y|]; [|done]. cbn [from_option normalize_year].
  unfold no_year. intros Hy.
  destruct (negb (nonempty (Py.strip y))
            || is_in (Py.lower (Py.strip y)) unknown_years) eqn:Hcond; [done|].
  apply orb_false_iff in Hcond as [_ Hknown].
  unfold Py.strip. rewrite strip_idempotent. fold (Py.strip y).
  apply is_in_spec in Hy. apply is_in_spec.
  repeat (apply elem_of_cons in Hy as [Hy|Hy];
          [rewrite Hy in *; first [by vm_compute in Hknown
                                  | apply (bool_decide_unpack _); by vm_compute]|]).
  by apply elem_of_nil in Hy.
Qed.

Lemma filter_none {A : Type} (keep : A -> bool) (l : list A) :
  forallb (fun a => negb (keep a)) l = true -> List.filter keep l = [].
Proof.
  induction l as [|a l IH]; [done|]. cbn [forallb List.filter].
  intros [Ha Hl]%andb_true_iff. apply negb_true_iff in Ha. by rewrite Ha, IH.
Qed.

Lemma forallb_impl {A : Type} (f g : A -> bool) (l : list A) :
  (forall a, f a = true -> g a = true) ->
  forallb f l = true -> forallb g l = true.
Proof.
  intros Hfg. induction l as [|a l IH]; [done|]. cbn [forallb].
  intros [Ha Hl]%andb_true_iff. by rewrite (Hfg a Ha), IH.
Qed.

Lemma unknown_name_dropped a :
  unknown_name a = true ->
  negb (nonempty (Py.strip a)
        && negb (is_in (Py.lower (Py.strip a)) unknown_tokens)) = true.
Proof.
  unfold unknown_name. destruct (nonempty (Py.strip a)); cbn [negb orb andb].
  - by intros ->.
  - done.
Qed.

Lemma unknown_name_strip a : unknown_name (Py.strip a) = unknown_name a.
Proof.
  unfold unknown_name, Py.strip. by rewrite strip_idempotent.
Qed.

Lemma no_authors_found `{Runtime} (v : option authors_value) :
  match v with
  | None => true
  | Some (AuthorsText text) => forallb unknown_name (Py.split_on "," text)
  | Some (AuthorsArray names) => forallb unknown_name names
  end = true ->
  map titlecase
    (List.filter
       (fun a => nonempty (Py.strip a)
                 && negb (is_in (Py.lower (Py.strip a)) unknown_tokens))
       match v with
       | None => []
       | Some (AuthorsText "") => []
       | Some (AuthorsText text) =>
           map Py.strip
             (List.filter (fun a => nonempty (Py.strip a)) (Py.split_on "," text))
       | Some (AuthorsArray names) => names
       end) = [].
Proof.
  intros Hv.
  assert (Hdrop : forall l, forallb unknown_name l = true ->
            List.filter
              (fun a => nonempty (Py.strip a)
                        && negb (is_in (Py.lower (Py.strip a)) unknown_tokens))
              l = []).
  { intros l Hl. apply filter_none.
    apply (forallb_impl unknown_name); [apply unknown_name_dropped|done]. }
  assert (Htext : forall l, forallb unknown_name l = true ->
            forallb unknown_name
              (map Py.strip (List.filter (fun a => nonempty (Py.strip a)) l))
            = true).
  { intros l. induction l as [|a l IH]; [done|]. cbn [forallb List.filter].
    intros [Ha Hl]%andb_true_iff.
    destruct (nonempty (Py.strip a)); [|by apply IH].
    cbn [map forallb]. by rewrite unknown_name_strip, Ha, IH. }
  destruct v as [[text|names]|]; [|by rewrite Hdrop|done].
  destruct text as [|c text]; [done|].
  by rewrite (Hdrop _ (Htext _ Hv)).
Qed.

(** X7: a document for which the model has found nothing is not renamed.
    When the authors are absent or all blank or unknown, the year is absent,
    blank or one of the unknown years, and the journal and the title are
    absent, blank or unknown, the decision is a skip, for empty metadata in
    paper mode and for the missing title in book mode, and the files are
    left as they are. *)
Theorem empty_answer_is_skipped `{Runtime} (cfg : settings) (fuel : nat)
    (fs : filesystem) (path : string) (is_book : bool)
    (reply : validator_reply) (data : raw_metadata) :
  filename_already_formatted reply = false ->
  nothing_found data = true ->
  process_file cfg fuel fs path is_book reply (Some data)
  = Some (Skipped (if is_book then BookTitleMissing else EmptyMetadata), fs).
Proof.
  intros Hreply Hnothing.
  unfold nothing_found in Hnothing.
  apply andb_true_iff in Hnothing as [Hnothing Htitle].
  apply andb_true_iff in Hnothing as [Hnothing Hjournal].
  apply andb_true_iff in Hnothing as [Hauthors Hyear].
  assert (Hmeta : exists y,
            get_metadata_from_snippet data
            = {| authors := Some []; year := Some y; journal := Some "";
                 title := Some "" |}
            /\ is_in (Py.lower (Py.strip y))
                 [""; "n.d."; "nd"; "unknown"; "unknownyear"] = true).
  { exists (normalize_year (raw_year data)).
    split; [|by apply no_year_normalised].
    unfold get_metadata_from_snippet. cbv zeta.
    rewrite (no_authors_found _ Hauthors).
    f_equal; f_equal.
    - destruct (raw_journal data) as [j|]; [|done]. cbn [from_option default] in *.
      pose proof (unknown_name_normalised (fun _ => false) j) as Hj.
      cbv zeta in Hj. rewrite !orb_false_r in Hj. by apply Hj.
    - destruct (raw_title data) as [t|]; [|done]. cbn [from_option default] in *.
      pose proof (unknown_name_normalised
                    (fun t => String.eqb t "unknowntitle") t) as Ht.
      cbv zeta in Ht. by apply Ht. }
  destruct Hmeta as (y & Hmeta & Hy).
  unfold process_file, extract_and_rename. rewrite Hreply, Hmeta.
  destruct is_book; [done|]. cbn [andb].
  unfold _metadata_all_empty.
  cbn [authors year journal title default from_option id map length].
  by rewrite Hy.
Qed.

Lemma empty_answer_is_skipped_witness :
  @process_file fallback_runtime default_settings 0 (tree small_shelf)
    "/d/in.pdf" false CallRaises (Some empty_answer)
  = Some (Skipped EmptyMetadata, tree small_shelf).
Proof.
  apply (empty_answer_is_skipped (H := fallback_runtime) default_settings 0
           (tree small_shelf) "/d/in.pdf" false CallRaises empty_answer);
    reflexivity.
Defined.

(** ** Words and their joins *)

Lemma split_word w : is_word w -> Py.split w = [w].
Proof.
  intros [Hne Hall]. induction w as [|c w IH]; [done|].
  cbn [Py.all] in Hall. apply andb_true_iff in Hall as [Hc Hw].
  apply negb_true_iff in Hc. cbn [Py.split]. rewrite Hc.
  destruct w as [|d w]; [done|].
  cbn [Py.all] in Hw. pose proof Hw as Hw'.
  apply andb_true_iff in Hw' as [Hd _].
  cbn [Py.starts_word]. rewrite Hd. by rewrite IH.
Qed.

Lemma split_word_blank w t :
  is_word w -> Py.split (w +:+ String " " t) = w :: Py.split t.
Proof.
  intros [Hne Hall]. induction w as [|c w IH]; [done|].
  cbn [Py.all] in Hall. apply andb_true_iff in Hall as [Hc Hw].
  apply negb_true_iff in Hc. rewrite append_cons. cbn [Py.split]. rewrite Hc.
  destruct w as [|d w].
  - rewrite append_nil_l. cbn [Py.starts_word Py.split]. done.
  - cbn [Py.all] in Hw. pose proof Hw as Hw'.
    apply andb_true_iff in Hw' as [Hd _].
    rewrite (append_cons d). cbn [Py.starts_word]. rewrite Hd.
    rewrite <- (append_cons d). by rewrite IH.
Qed.

(** [split] undoes the join of words with single spaces. *)
Lemma split_join ws : Forall is_word ws -> Py.split (Py.join " " ws) = ws.
Proof.
  induction 1 as [|w ws Hw Hws IH]; [done|].
  destruct ws as [|w' ws]; [by apply split_word|].
  change (Py.join " " (w :: w' :: ws))
    with (w +:+ " " +:+ Py.join " " (w' :: ws)).
  change (" " +:+ Py.join " " (w' :: ws))
    with (String " " (Py.join " " (w' :: ws))).
  by rewrite (split_word_blank w _ Hw), IH.
Qed.

Lemma filter_words ws : Forall is_word ws -> List.filter nonempty ws = ws.
Proof.
  induction 1 as [|w ws [Hne _] Hws IH]; [done|]. cbn [List.filter].
  destruct (nonempty w) eqn:Hw; [by rewrite IH|].
  by apply nonempty_false in Hw.
Qed.

Lemma filter_all p s : Py.all p s = true -> Py.filter p s = s.
Proof.
  induction s as [|c s IH]; [done|]. cbn [Py.all Py.filter].
  intros [-> Hs]%andb_true_iff. by rewrite IH.
Qed.

Lemma Forall_removelast {A : Type} (P : A -> Prop) (l : list A) :
  Forall P l -> Forall P (removelast l).
Proof.
  induction 1 as [|x l Hx Hl IH]; [done|]. cbn [removelast].
  destruct l; [done|]. by constructor.
Qed.

Lemma name_parts_words full : Forall is_word (name_parts full).
Proof.
  unfold name_parts. apply Forall_forall. intros w Hw.
  apply list_elem_of_In, filter_In in Hw as [Hw _].
  pose proof (split_words (Py.strip (Py.sub_semicolon_comma full))) as Hall.
  rewrite Forall_forall in Hall. by apply Hall, list_elem_of_In.
Qed.

Lemma pop_suffix_keeps (P : string -> Prop) parts :
  Forall P parts -> Forall P (pop_suffix parts).2.
Proof.
  intros Hparts. unfold pop_suffix.
  destruct (last parts); [|done].
  destruct (bool_decide _); [|done]. by apply Forall_removelast.
Qed.

(** The middle of a parsed name is the join of the parts between the first
    and the last. *)
Lemma parse_author_middle full :
  middle (_parse_author full)
  = Py.join " " (inner (pop_suffix (name_parts full)).2).
Proof.
  unfold _parse_author.
  destruct (nonempty full) eqn:Hfull; cbn [negb].
  - destruct (pop_suffix (name_parts full)) as [sfx parts]. cbn [snd].
    destruct (last parts) as [t|] eqn:Hlast.
    + destruct (Nat.eqb (length parts) 1) eqn:Hlen.
      * apply Nat.eqb_eq in Hlen. destruct parts as [|t1 [|t2 parts]]; done.
      * cbn [middle]. by destruct (inner parts).
    + apply last_None in Hlast as ->. done.
  - apply nonempty_false in Hfull as ->. done.
Qed.

(** X8: the middle initials of a parsed name are the initials of the parts
    between the first name and the surname, each followed by a period, in
    their order and with single spaces between them. *)
Theorem middle_initials_of_a_parsed_name (full : string) :
  _middle_initials (middle (_parse_author full))
  = Py.join " "
      (map (fun t => _initial t +:+ ".")
         (inner (pop_suffix (name_parts full)).2)).
Proof.
  rewrite parse_author_middle.
  assert (Hwords : Forall is_word (inner (pop_suffix (name_parts full)).2)).
  { unfold inner. apply Forall_removelast.
    pose proof (pop_suffix_keeps is_word _ (name_parts_words full)) as Hparts.
    destruct ((pop_suffix (name_parts full)).2) as [|t parts]; [done|].
    cbn [tl]. by inversion Hparts. }
  destruct (inner (pop_suffix (name_parts full)).2) as [|w ws] eqn:Hinner;
    [done|].
  unfold _middle_initials.
  destruct (nonempty (Py.join " " (w :: ws))) eqn:Hne; cbn [negb].
  - by rewrite (split_join _ Hwords), (filter_words _ Hwords).
  - apply nonempty_false in Hne.
    by destruct (join_nonempty (w :: ws) Hwords).
Qed.

Lemma cleaning_is_idempotent (valid : ascii -> bool) (filename : string) :
  valid " "%char = true ->
  let name := Py.strip (Py.join " " (Py.split (Py.filter valid filename))) in
  Py.strip (Py.join " " (Py.split (Py.filter valid name))) = name.
Proof.
  intros Hvalid. cbv zeta.
  set (ws := Py.split (Py.filter valid filename)).
  assert (Hwords : Forall is_word ws) by apply split_words.
  rewrite (strip_tidy _ (join_tidy ws Hwords)).
  rewrite filter_all.
  - by rewrite (split_join ws Hwords), (strip_tidy _ (join_tidy ws Hwords)).
  - apply join_all; [done|]. apply split_all, all_filter.
Qed.

(** X9: the name that [build_new_filename] returns is left as it is by the
    cleaning that made it: with the reserved characters taken out, split at
    blanks, joined with single spaces and stripped, it is the same name. *)
Theorem built_name_is_clean_already `{Runtime} (cfg : settings)
    (meta : metadata) (is_book : bool) (name : string) :
  build_new_filename cfg meta is_book = Some name ->
  Py.strip
    (Py.join " "
       (Py.split
          (Py.filter (fun c => negb (Py.mem_char c INVALID_FILENAME_CHARS)) name)))
  = name.
Proof.
  unfold build_new_filename.
  destruct (str_format _ _ _ _ _) as [filename|]; [|done].
  intros Hname.
  pose proof (cleaning_is_idempotent
                (fun c => negb (Py.mem_char c INVALID_FILENAME_CHARS))
                filename eq_refl) as Hclean.
  cbv zeta in Hclean, Hname.
  congruence.
Qed.

Lemma built_name_is_clean_already_witness :
  Py.strip
    (Py.join " "
       (Py.split
          (Py.filter (fun c => negb (Py.mem_char c INVALID_FILENAME_CHARS))
             "Acm - 2020 - Doe - A Study Part 12.pdf")))
  = "Acm - 2020 - Doe - A Study Part 12.pdf".
Proof.
  apply (built_name_is_clean_already (H := fallback_runtime) default_settings
           (@get_metadata_from_snippet fallback_runtime study) false).
  reflexivity.
Defined.

(** ** Authors given in one string *)

Lemma split_on_piece sep n t :
  Py.mem_char sep n = false ->
  Py.split_on sep (n +:+ String sep t) = n :: Py.split_on sep t.
Proof.
  induction n as [|c n IH].
  - intros _. rewrite append_nil_l. cbn [Py.split_on].
    by rewrite Ascii.eqb_refl.
  - cbn [Py.mem_char]. rewrite Ascii.eqb_sym.
    destruct (Ascii.eqb c sep) eqn:Hc; [done|]. intros Hn.
    rewrite append_cons. cbn [Py.split_on]. by rewrite Hc, (IH Hn).
Qed.

Lemma split_on_last sep n :
  Py.mem_char sep n = false -> Py.split_on sep n = [n].
Proof.
  induction n as [|c n IH]; [done|].
  cbn [Py.mem_char]. rewrite Ascii.eqb_sym.
  destruct (Ascii.eqb c sep) eqn:Hc; [done|]. intros Hn.
  cbn [Py.split_on]. by rewrite Hc, (IH Hn).
Qed.

(** The pieces of a join with a comma and a space: the first name, and the
    others with the space before them. *)
Lemma split_on_join n names :
  Forall (fun n => Py.mem_char "," n = false) (n :: names) ->
  Py.split_on "," (Py.join ", " (n :: names)) = n :: map (String " ") names.
Proof.
  revert n. induction names as [|n' names IH]; intros n Hall.
  - inversion Hall; subst. by apply split_on_last.
  - inversion Hall as [|? ? Hn Hrest]; subst.
    change (Py.join ", " (n :: n' :: names))
      with (n +:+ ", " +:+ Py.join ", " (n' :: names)).
    change (", " +:+ Py.join ", " (n' :: names))
      with (String "," (String " " (Py.join ", " (n' :: names)))).
    rewrite (split_on_piece "," n _ Hn).
    cbn [Py.split_on]. change (Ascii.eqb " " ",") with false. cbv iota.
    by rewrite (IH n' Hrest).
Qed.

Lemma strip_after_space n : Py.strip (String " " n) = Py.strip n.
Proof. reflexivity. Qed.

Lemma filter_filter {A : Type} (f g : A -> bool) (l : list A) :
  (forall a, f a = true -> g a = true) ->
  List.filter f (List.filter g l) = List.filter f l.
Proof.
  intros Hfg. induction l as [|a l IH]; [done|]. cbn [List.filter].
  destruct (g a) eqn:Hg.
  - cbn [List.filter]. by rewrite IH.
  - rewrite IH. destruct (f a) eqn:Hf; [|done].
    rewrite (Hfg a Hf) in Hg. done.
Qed.

Lemma map_filter_strip (keep : string -> bool) (l : list string) :
  map Py.strip (List.filter (fun a => keep (Py.strip a)) l)
  = List.filter keep (map Py.strip l).
Proof.
  induction l as [|a l IH]; [done|]. cbn [List.filter map].
  destruct (keep (Py.strip a)); cbn [map]; by rewrite IH.
Qed.

Lemma map_strip_pieces names :
  Forall (fun n => Py.strip n = n) names ->
  map Py.strip (map (String " ") names) = names.
Proof.
  induction 1 as [|n names Hn Hnames IH]; [done|]. cbn [map].
  by rewrite strip_after_space, Hn, IH.
Qed.

(** X10: authors that the model gives in one string, the names joined with
    a comma and a space, are read as the array of these names is, when no
    name has a comma in it or a blank around it. *)
Theorem authors_in_one_string_are_split `{Runtime} (text_data array_data : raw_metadata)
    (names : list string) :
  Forall (fun n => Py.strip n = n /\ Py.mem_char "," n = false) names ->
  raw_authors text_data = Some (AuthorsText (Py.join ", " names)) ->
  raw_authors array_data = Some (AuthorsArray names) ->
  authors (get_metadata_from_snippet text_data)
  = authors (get_metadata_from_snippet array_data).
Proof.
  intros Hnames Htext Harray.
  unfold get_metadata_from_snippet. cbv zeta. cbn [authors].
  rewrite Htext, Harray. do 2 f_equal.
  assert (Hsplit :
    match Py.join ", " names with
    | "" => []
    | _ =>
        map Py.strip
          (List.filter (fun a => nonempty (Py.strip a))
             (Py.split_on "," (Py.join ", " names)))
    end = List.filter nonempty names).
  { transitivity
      (map Py.strip
         (List.filter (fun a => nonempty (Py.strip a))
            (Py.split_on "," (Py.join ", " names)))).
    { by destruct (Py.join ", " names). }
    rewrite map_filter_strip.
    destruct names as [|n names]; [done|]. f_equal.
    rewrite split_on_join.
    - cbn [map]. inversion Hnames as [|? ? [Hn _] Hrest]; subst.
      rewrite Hn. f_equal. apply map_strip_pieces.
      apply (Forall_impl _ _ _ Hrest). by intros ? [? _].
    - apply (Forall_impl _ _ _ Hnames). by intros ? [_ ?]. }
  rewrite Hsplit. apply filter_filter.
  intros a [Ha _]%andb_true_iff.
  revert Ha. destruct (nonempty a) eqn:Hempty; [done|].
  apply nonempty_false in Hempty as ->. done.
Qed.

Lemma authors_in_one_string_are_split_witness :
  authors (@get_metadata_from_snippet fallback_runtime
             {| raw_authors := Some (AuthorsText "jane doe, , john q. public");
                raw_year := None; raw_journal := None; raw_title := None |})
  = authors (@get_metadata_from_snippet fallback_runtime
               {| raw_authors :=
                    Some (AuthorsArray ["jane doe"; ""; "john q. public"]);
                  raw_year := None; raw_journal := None; raw_title := None |}).
Proof.
  apply (authors_in_one_string_are_split (H := fallback_runtime) _ _
           ["jane doe"; ""; "john q. public"]); [|reflexivity|reflexivity].
  repeat constructor.
Defined.

(** ** The snippet *)

Lemma writer_pages {page : Type} (l acc : list page) :
  fold_left (fun writer p => writer ++ [p]) l acc = acc ++ l.
Proof.
  revert acc. induction l as [|p l IH]; intros acc; cbn [fold_left].
  - by rewrite app_nil_r.
  - by rewrite IH, <- app_assoc.
Qed.

(** X11: the snippet is a run of pages from the start of the document, in
    their order: as many as asked when the number is not negative and the
    document has that many, all of them when it has fewer, and all but the
    last [-n] for a negative number [n]. *)
Theorem snippet_is_the_start_of_the_document {page : Type}
    (pages : list page) (n : Z) :
  (exists rest, pages = extract_first_n_pages pages n ++ rest)
  /\ Z.of_nat (length (extract_first_n_pages pages n))
     = Z.max 0
         (Z.min (Z.of_nat (length pages))
            (if (0 <=? n)%Z then n else (Z.of_nat (length pages) + n)%Z)).
Proof.
  unfold extract_first_n_pages, slice_to. rewrite writer_pages. cbn [app].
  destruct (0 <=? n)%Z eqn:Hn.
  - apply Z.leb_le in Hn. split.
    + exists (skipn (Z.to_nat n) pages). by rewrite firstn_skipn.
    + rewrite length_firstn. lia.
  - apply Z.leb_gt in Hn. split.
    + exists (skipn (length pages - Z.to_nat (- n)) pages).
      by rewrite firstn_skipn.
    + rewrite length_firstn. lia.
Qed.

(** ** The Settings window and the version *)

Lemma or_else_trimmed text fallback :
  trimmed fallback -> trimmed (or_else (Py.strip text) fallback).
Proof.
  intros Hfallback. unfold or_else.
  destruct (nonempty (Py.strip text)) eqn:Hne; [|done].
  split.
  - intros Hempty. rewrite Hempty in Hne. done.
  - unfold Py.strip. apply strip_idempotent.
Qed.

Lemma or_else_kept s fallback : trimmed s -> or_else (Py.strip s) fallback = s.
Proof.
  intros [Hne ->]. unfold or_else.
  destruct (nonempty s) eqn:Hs; [done|]. by apply nonempty_false in Hs.
Qed.

Lemma or_else_saved_from entry fallback :
  saved_from entry fallback (or_else (Py.strip entry) fallback).
Proof.
  unfold saved_from, or_else.
  destruct (nonempty (Py.strip entry)) eqn:Hne.
  - split; [|done]. intros Hempty. rewrite Hempty in Hne. done.
  - apply nonempty_false in Hne. by split.
Qed.

(** X12: the button Save leaves no setting empty and none with a blank
    around it. Each of the five settings of the names and the model is the
    text of its entry without the blanks around it, and the default of the
    setting when the entry is blank. The key is the text of its entry
    without the blanks around it, and the key there was when the entry is
    blank: Save never takes a key away. *)
Theorem save_and_close_keeps_the_settings_well (g : globals) (e : entries) :
  well_kept (save_and_close g e)
  /\ saved_from (pat_entry e) DEFAULT_OUTPUT_PATTERN
       (OUTPUT_PATTERN (naming (save_and_close g e)))
  /\ saved_from (book_pat_entry e) DEFAULT_BOOK_OUTPUT_PATTERN
       (BOOK_OUTPUT_PATTERN (naming (save_and_close g e)))
  /\ saved_from (plc_entry e) DEFAULT_UNPUBLISHED
       (UNPUBLISHED_PLACEHOLDER (naming (save_and_close g e)))
  /\ saved_from (paper_fmt_entry e) DEFAULT_AUTHOR_FMT_PAPER
       (AUTHOR_FMT_PAPER (naming (save_and_close g e)))
  /\ saved_from (book_fmt_entry e) DEFAULT_AUTHOR_FMT_BOOK
       (AUTHOR_FMT_BOOK (naming (save_and_close g e)))
  /\ saved_from (model_entry e) DEFAULT_MODEL (MODEL_NAME (save_and_close g e))
  /\ saved_from (api_entry_cfg e) (API_KEY g) (API_KEY (save_and_close g e))
  /\ (API_KEY g <> "" -> API_KEY (save_and_close g e) <> "").
Proof.
  split.
  { unfold well_kept. cbn [save_and_close naming OUTPUT_PATTERN
      BOOK_OUTPUT_PATTERN UNPUBLISHED_PLACEHOLDER AUTHOR_FMT_PAPER
      AUTHOR_FMT_BOOK MODEL_NAME].
    repeat split; apply or_else_trimmed; by split. }
  cbn [save_and_close naming OUTPUT_PATTERN BOOK_OUTPUT_PATTERN
    UNPUBLISHED_PLACEHOLDER AUTHOR_FMT_PAPER AUTHOR_FMT_BOOK MODEL_NAME API_KEY].
  repeat (split; [apply or_else_saved_from|]).
  intros Hkey. unfold or_else.
  destruct (nonempty (Py.strip (api_entry_cfg e))) eqn:Hne; [|done].
  intros Hempty. rewrite Hempty in Hne. done.
Qed.

Lemma save_and_close_keeps_the_settings_well_witness :
  OUTPUT_PATTERN (naming (save_and_close example_globals edited_entries))
  = DEFAULT_OUTPUT_PATTERN
  /\ MODEL_NAME (save_and_close example_globals edited_entries) = "some-model"
  /\ API_KEY (save_and_close example_globals edited_entries) = "k".
Proof.
  destruct (save_and_close_keeps_the_settings_well example_globals
              edited_entries)
    as (_ & [Hpattern _] & _ & _ & _ & _ & [_ Hmodel] & [Hkey _] & _).
  split; [by apply Hpattern|]. split; [|by apply Hkey].
  apply Hmodel. discriminate.
Defined.

(** X13: Save on the window as [show_config] has filled it changes
    nothing, when no setting is empty or has a blank around it and the key
    has no blank around it. *)
Theorem save_of_the_shown_settings_is_the_identity (g : globals) :
  well_kept g -> Py.strip (API_KEY g) = API_KEY g ->
  save_and_close g (show_config g) = g.
Proof.
  destruct g as [[pattern book_pattern placeholder paper_fmt book_fmt] key model].
  unfold well_kept. cbn [naming OUTPUT_PATTERN BOOK_OUTPUT_PATTERN
    UNPUBLISHED_PLACEHOLDER AUTHOR_FMT_PAPER AUTHOR_FMT_BOOK MODEL_NAME API_KEY].
  intros (H1 & H2 & H3 & H4 & H5 & H6) Hkey.
  unfold save_and_close, show_config.
  cbn [naming OUTPUT_PATTERN BOOK_OUTPUT_PATTERN UNPUBLISHED_PLACEHOLDER
    AUTHOR_FMT_PAPER AUTHOR_FMT_BOOK MODEL_NAME API_KEY pat_entry book_pat_entry
    plc_entry paper_fmt_entry book_fmt_entry api_entry_cfg model_entry].
  assert (Hsame : or_else (Py.strip key) key = key).
  { unfold or_else. rewrite Hkey. by destruct (nonempty key). }
  by rewrite Hsame, !or_else_kept.
Qed.

Lemma save_of_the_shown_settings_is_the_identity_witness :
  save_and_close example_globals (show_config example_globals) = example_globals.
Proof.
  apply (save_of_the_shown_settings_is_the_identity example_globals);
    [|reflexivity].
  repeat split; discriminate.
Defined.

(** X14: the version of the program is never empty and has no blank around
    it: it is the variable of the environment, or else the text of the
    version file, each stripped and taken when something is left, or else
    the word dev. *)
Theorem app_version_is_never_empty (env : option string)
    (version_file : option (option string)) :
  trimmed (APP_VERSION env version_file)
  /\ (Py.strip (default "" env) = "" ->
      _read_version_from_file version_file = "" ->
      APP_VERSION env version_file = "dev").
Proof.
  unfold APP_VERSION. split.
  - apply or_else_trimmed. unfold _read_version_from_file.
    destruct version_file as [[text|]|]; try by split.
    cbv zeta. destruct (nonempty (Py.strip text)) eqn:Hne; [|by split].
    unfold or_else. rewrite Hne. split.
    + intros Hempty. rewrite Hempty in Hne. done.
    + unfold Py.strip. apply strip_idempotent.
  - by intros -> ->.
Qed.

Lemma app_version_is_never_empty_witness :
  APP_VERSION (Some "  ") (Some (Some " ")) = "dev".
Proof.
  destruct (app_version_is_never_empty (Some "  ") (Some (Some " ")))
    as [_ Hdev].
  apply Hdev; reflexivity.
Defined.

(** ** Rendering with the default formats *)

Lemma all_impl (p q : ascii -> bool) s :
  (forall c, p c = true -> q c = true) ->
  Py.all p s = true -> Py.all q s = true.
Proof.
  intros Hpq. induction s as [|c s IH]; [done|]. cbn [Py.all].
  intros [Hc Hs]%andb_true_iff. by rewrite (Hpq c Hc), IH.
Qed.

Lemma all_and (p q : ascii -> bool) s :
  Py.all p s = true -> Py.all q s = true ->
  Py.all (fun c => p c && q c) s = true.
Proof.
  induction s as [|c s IH]; [done|]. cbn [Py.all].
  intros [Hp Hs]%andb_true_iff [Hq Hs']%andb_true_iff.
  by rewrite Hp, Hq, IH.
Qed.

Lemma lstrip_all p q s : Py.all q s = true -> Py.all q (Py.lstrip_if p s) = true.
Proof.
  induction s as [|c s IH]; [done|]. intros Hs. cbn [Py.lstrip_if].
  destruct (p c); [|done]. apply IH. cbn [Py.all] in Hs.
  by apply andb_true_iff in Hs as [_ Hs].
Qed.

Lemma rstrip_all p q s : Py.all q s = true -> Py.all q (Py.rstrip_if p s) = true.
Proof.
  induction s as [|c s IH]; [done|]. cbn [Py.all Py.rstrip_if].
  intros [Hc Hs]%andb_true_iff. specialize (IH Hs).
  destruct (Py.rstrip_if p s) as [|d r].
  - destruct (p c); [done|]. cbn. by rewrite Hc.
  - cbn [Py.all] in *. by rewrite Hc, IH.
Qed.

(** A string of characters that [p] does not hold of has no match that
    starts with one, and neither end of it is such a character. *)
Lemma no_match_none p x s :
  Py.all (fun c => negb (p c)) s = true -> no_match p x s = true.
Proof.
  induction s as [|c s IH]; [done|]. cbn [Py.all no_match].
  intros [Hc Hs]%andb_true_iff. apply negb_true_iff in Hc.
  by rewrite Hc, IH.
Qed.

Lemma head_in_none p s :
  Py.all (fun c => negb (p c)) s = true -> head_in p s = false.
Proof.
  destruct s as [|c s]; [done|]. cbn [Py.all head_in].
  intros [Hc _]%andb_true_iff. by apply negb_true_iff in Hc.
Qed.

Lemma last_in_none p s :
  Py.all (fun c => negb (p c)) s = true -> last_in p s = false.
Proof.
  induction s as [|c s IH]; [done|]. cbn [Py.all last_in].
  intros [Hc Hs]%andb_true_iff. apply negb_true_iff in Hc.
  destruct s; [done|]. by apply IH.
Qed.

Lemma spaced_none s :
  Py.all (fun c => negb (Py.isspace c)) s = true -> spaced s = true.
Proof.
  induction s as [|c s IH]; [done|]. cbn [Py.all spaced].
  intros [Hc Hs]%andb_true_iff. apply negb_true_iff in Hc.
  by rewrite Hc, IH.
Qed.

Lemma name_char_spec c :
  name_char c = true ->
  Py.isspace c = false /\ Ascii.eqb c "," = false /\ Ascii.eqb c ";" = false
  /\ Ascii.eqb c "{" = false /\ Ascii.eqb c "(" = false.
Proof.
  unfold name_char, plain. cbn [Py.mem_char].
  destruct (Py.isspace c); [done|].
  by destruct (Ascii.eqb c ";"), (Ascii.eqb c ","), (Ascii.eqb c "{"),
    (Ascii.eqb c "(").
Qed.

(** A part of a name made of such characters is left as it is by the
    clean-up. *)
Lemma name_part_settled w : Py.all name_char w = true -> settled w = true.
Proof.
  intros Hw. unfold settled, no_blanks_before, no_pair.
  rewrite spaced_none, !no_match_none, head_in_none, last_in_none; try done;
    apply (all_impl name_char); try done;
    intros c (Hblank & Hcomma & _ & _ & Hparen)%name_char_spec;
    cbn [Py.mem_char];
    try (destruct (Ascii.eqb c " ") eqn:Hspace;
         [by apply Ascii.eqb_eq in Hspace as ->|]);
    by rewrite ?Hblank, ?Hcomma, ?Hparen.
Qed.

Lemma replace_past a old new w t :
  Py.mem_char a w = false ->
  Py.replace_from (String a old) new 0 (w +:+ t)
  = w +:+ Py.replace_from (String a old) new 0 t.
Proof.
  induction w as [|c w IH]; [done|]. cbn [Py.mem_char].
  destruct (Ascii.eqb a c) eqn:Hc; [done|]. intros Hw.
  rewrite !append_cons. cbn [Py.replace_from String.prefix].
  destruct (ascii_dec a c) as [->|_]; [by rewrite Ascii.eqb_refl in Hc|].
  by rewrite (IH Hw).
Qed.

Lemma replace_absent a old new w :
  Py.mem_char a w = false -> Py.replace (String a old) new w = w.
Proof.
  intros Hw. unfold Py.replace.
  rewrite <- (append_nil_r w) at 1. rewrite (replace_past a old new w "" Hw).
  apply append_nil_r.
Qed.

(** The tokens of the paper format: the surname takes the place of the
    format, and no later token finds a brace in it. *)
Lemma substitute_surname comps :
  Py.mem_char "{" (surname comps) = false ->
  substitute "{surname}" (render_tokens comps) = surname comps.
Proof.
  intros Hw. unfold substitute, render_tokens. cbn [fold_left fst snd].
  change (Py.replace ("{" +:+ "surname" +:+ "}") (surname comps)
            (Py.replace ("{" +:+ "middle" +:+ "}") (middle comps)
               (Py.replace ("{" +:+ "first" +:+ "}") (first comps) "{surname}")))
    with (surname comps +:+ "").
  rewrite append_nil_r.
  change ("{" +:+ "last" +:+ "}") with (String "{" "last}").
  change ("{" +:+ "family" +:+ "}") with (String "{" "family}").
  change ("{" +:+ "suffix" +:+ "}") with (String "{" "suffix}").
  change ("{" +:+ "first_initial" +:+ "}") with (String "{" "first_initial}").
  change ("{" +:+ "surname_initial" +:+ "}") with (String "{" "surname_initial}").
  change ("{" +:+ "middle_initials" +:+ "}") with (String "{" "middle_initials}").
  by rewrite !(replace_absent "{" _ _ _ Hw).
Qed.

Lemma sub_semicolon_comma_plain full :
  Py.all plain full = true ->
  Py.all (fun c => negb (Py.mem_char c ";,") && plain c)
    (Py.sub_semicolon_comma full) = true.
Proof.
  induction full as [|c full IH]; [done|]. cbn [Py.all Py.sub_semicolon_comma].
  intros [Hc Hfull]%andb_true_iff. rewrite (IH Hfull), andb_true_r.
  cbn [Py.mem_char].
  destruct (Ascii.eqb c ";") eqn:Hsemi; [done|].
  destruct (Ascii.eqb c ",") eqn:Hcomma; [done|].
  cbn [orb]. by rewrite Hsemi, Hcomma, Hc.
Qed.

(** The parts of a name with plain characters are made of the characters
    of names. *)
Lemma name_parts_chars full :
  Py.all plain full = true ->
  Forall (fun w => Py.all name_char w = true) (name_parts full).
Proof.
  intros Hfull. unfold name_parts. apply Forall_forall. intros w Hw.
  apply list_elem_of_In, filter_In in Hw as [Hw _].
  apply list_elem_of_In in Hw.
  set (s := Py.strip (Py.sub_semicolon_comma full)) in *.
  assert (Hs : Py.all (fun c => negb (Py.mem_char c ";,") && plain c) s = true).
  { unfold s, Py.strip, Py.strip_if.
    by apply rstrip_all, lstrip_all, sub_semicolon_comma_plain. }
  pose proof (split_all _ s Hs) as Hchars.
  pose proof (split_words s) as Hwords.
  rewrite Forall_forall in Hchars, Hwords.
  destruct (Hwords w Hw) as [_ Hblank].
  pose proof (all_and _ _ w Hblank (Hchars w Hw)) as Hboth.
  apply (all_impl _ name_char) in Hboth; [done|].
  intros c. unfold name_char. by rewrite andb_assoc.
Qed.

(** Whatever holds of the empty string and of the parts of a name holds of
    the first name and of the surname that [_parse_author] gives. *)
Lemma parse_author_parts (P : string -> Prop) full :
  P "" -> Forall P (name_parts full) ->
  P (first (_parse_author full)) /\ P (surname (_parse_author full)).
Proof.
  intros Hempty Hparts. unfold _parse_author.
  destruct (nonempty full); cbn [negb]; [|done].
  pose proof (pop_suffix_keeps P _ Hparts) as Hrest.
  destruct (pop_suffix (name_parts full)) as [sfx parts]. cbn [snd] in Hrest.
  rewrite Forall_forall in Hrest.
  destruct (last parts) as [t|] eqn:Hlast; [|done].
  apply last_Some_elem_of in Hlast.
  destruct (Nat.eqb (length parts) 1); cbn [first surname].
  - split; [done|by apply Hrest].
  - split; [|by apply Hrest].
    destruct parts as [|t1 parts]; [done|]. cbn [hd].
    apply Hrest. by left.
Qed.

(** X15: with the default format of papers, [{surname}], an author whose
    name has no opening brace or parenthesis is rendered as the surname
    that [_parse_author] finds, in title case, and as the empty string when
    it finds none. *)
Theorem paper_format_renders_the_surname `{Runtime} (full : string) :
  Py.all plain full = true ->
  _render_author DEFAULT_AUTHOR_FMT_PAPER (_parse_author full)
  = if nonempty (surname (_parse_author full))
    then titlecase (surname (_parse_author full))
    else "".
Proof.
  intros Hfull.
  destruct (parse_author_parts (fun w => Py.all name_char w = true) full
              eq_refl (name_parts_chars full Hfull)) as [_ Hw].
  unfold _render_author, DEFAULT_AUTHOR_FMT_PAPER.
  rewrite substitute_surname.
  - by rewrite (settled_cleanup _ (name_part_settled _ Hw)).
  - destruct (Py.mem_char "{" (surname (_parse_author full))) eqn:Hbrace; [|done].
    exfalso. revert Hw Hbrace.
    generalize (surname (_parse_author full)) as w.
    induction w as [|c w IH]; [done|]. cbn [Py.all Py.mem_char].
    intros [Hc Hw]%andb_true_iff.
    apply name_char_spec in Hc as (_ & _ & _ & Hc & _).
    rewrite Ascii.eqb_sym, Hc. by apply IH.
Qed.

Lemma paper_format_renders_the_surname_witness :
  @_render_author fallback_runtime DEFAULT_AUTHOR_FMT_PAPER
    (_parse_author "maria de la cruz jr.")
  = "Cruz".
Proof.
  rewrite (paper_format_renders_the_surname (H := fallback_runtime)
             "maria de la cruz jr."); reflexivity.
Defined.

Lemma sub_semicolon_comma_blank full :
  Py.all separator full = true ->
  Py.all Py.isspace (Py.sub_semicolon_comma full) = true.
Proof.
  induction full as [|c full IH]; [done|]. cbn [Py.all Py.sub_semicolon_comma].
  intros [Hc Hfull]%andb_true_iff. rewrite (IH Hfull), andb_true_r.
  unfold separator in Hc. cbn [Py.mem_char] in Hc.
  destruct (Ascii.eqb c ";"); [done|]. destruct (Ascii.eqb c ","); [done|].
  cbn [orb]. by rewrite orb_false_r in Hc.
Qed.

Lemma lstrip_everything p s : Py.all p s = true -> Py.lstrip_if p s = "".
Proof.
  induction s as [|c s IH]; [done|]. cbn [Py.all Py.lstrip_if].
  intros [-> Hs]%andb_true_iff. by apply IH.
Qed.

Lemma parse_separators full :
  Py.all separator full = true -> _parse_author full = no_parts.
Proof.
  intros Hfull. unfold _parse_author, name_parts, Py.strip, Py.strip_if.
  rewrite (lstrip_everything _ _ (sub_semicolon_comma_blank full Hfull)).
  by destruct (nonempty full).
Qed.

(** X16: a name made of blanks, commas and semicolons only has no parts.
    With the default format of papers its render is empty, so that
    [format_authors_list] leaves it out; with the default format of books
    its render is what is left of the format, a period, in title case. *)
Theorem name_of_separators_has_no_parts `{Runtime} (full : string) :
  Py.all separator full = true ->
  _parse_author full = no_parts
  /\ _render_author DEFAULT_AUTHOR_FMT_PAPER (_parse_author full) = ""
  /\ _render_author DEFAULT_AUTHOR_FMT_BOOK (_parse_author full) = titlecase ".".
Proof.
  intros Hfull. rewrite (parse_separators full Hfull). by repeat split.
Qed.

Lemma name_of_separators_has_no_parts_witness :
  @_render_author fallback_runtime DEFAULT_AUTHOR_FMT_BOOK (_parse_author " ; ,")
  = ".".
Proof.
  destruct (name_of_separators_has_no_parts (H := fallback_runtime) " ; ,")
    as (_ & _ & Hbook); [reflexivity|exact Hbook].
Defined.

(** ** Title case without the package *)

Lemma cased_kept (c : ascii) (b : bool) :
  let c' := if b then Py.lower_char c else Py.upper_char c in
  (Py.isupper c' || Py.islower c') = (Py.isupper c || Py.islower c)
  /\ (if b then Py.lower_char c' else Py.upper_char c') = c'.
Proof.
  destruct b; destruct c as [[] [] [] [] [] [] [] []]; by vm_compute.
Qed.

Lemma title_from_idempotent s :
  forall b, Py.title_from b (Py.title_from b s) = Py.title_from b s.
Proof.
  induction s as [|c s IH]; [done|]. intros b. cbn [Py.title_from].
  destruct (cased_kept c b) as [Hcased Hsame]. cbv zeta in Hcased, Hsame.
  by rewrite Hcased, Hsame, IH.
Qed.

Lemma title_from_ascii s :
  Py.all is_ascii s = true ->
  forall b, Py.all is_ascii (Py.title_from b s) = true.
Proof.
  induction s as [|c s IH]; [done|]. cbn [Py.all].
  intros [Hc Hs]%andb_true_iff b. cbn [Py.title_from Py.all].
  rewrite (IH Hs), andb_true_r. clear IH Hs. revert Hc.
  destruct b; destruct c as [[] [] [] [] [] [] [] []]; by vm_compute.
Qed.

(** X17: on ASCII text, the [titlecase] that the program defines when the
    package is missing, [str.title], is idempotent, changes no length and
    gives ASCII text: a string that it has put in title case is left as it
    is when it is put in title case again. *)
Theorem fallback_titlecase_is_idempotent (s : string) :
  Py.all is_ascii s = true ->
  @titlecase fallback_runtime (@titlecase fallback_runtime s)
  = @titlecase fallback_runtime s
  /\ String.length (@titlecase fallback_runtime s) = String.length s
  /\ Py.all is_ascii (@titlecase fallback_runtime s) = true.
Proof.
  intros Hascii. cbn [titlecase fallback_runtime]. unfold Py.title.
  split; [|split].
  - apply title_from_idempotent.
  - generalize false. clear Hascii. induction s as [|c s IH]; [done|]. intros b.
    cbn [Py.title_from String.length]. by rewrite IH.
  - by apply title_from_ascii.
Qed.

Lemma fallback_titlecase_is_idempotent_witness :
  @titlecase fallback_runtime (@titlecase fallback_runtime "o'neil de la CRUZ-x")
  = @titlecase fallback_runtime "o'neil de la CRUZ-x"
  /\ String.length (@titlecase fallback_runtime "o'neil de la CRUZ-x")
     = String.length "o'neil de la CRUZ-x"
  /\ Py.all is_ascii (@titlecase fallback_runtime "o'neil de la CRUZ-x") = true.
Proof.
  apply (fallback_titlecase_is_idempotent "o'neil de la CRUZ-x").
  reflexivity.
Defined.

(** ** The default format of books *)

Lemma append_empty s t : s +:+ t = "" -> t = "".
Proof. destruct s as [|c s]; [done|]. by rewrite append_cons. Qed.

Lemma spaced_append w t :
  Py.all (fun c => negb (Py.isspace c)) w = true -> spaced (w +:+ t) = spaced t.
Proof.
  induction w as [|c w IH]; [done|]. cbn [Py.all].
  intros [Hc Hw]%andb_true_iff. apply negb_true_iff in Hc.
  rewrite append_cons. cbn [spaced]. by rewrite Hc, (IH Hw).
Qed.

Lemma no_match_append p x w t :
  Py.all (fun c => negb (p c)) w = true ->
  no_match p x (w +:+ t) = no_match p x t.
Proof.
  induction w as [|c w IH]; [done|]. cbn [Py.all].
  intros [Hc Hw]%andb_true_iff. apply negb_true_iff in Hc.
  rewrite append_cons. cbn [no_match]. by rewrite Hc, (IH Hw).
Qed.

Lemma head_in_append p w t : w <> "" -> head_in p (w +:+ t) = head_in p w.
Proof. destruct w as [|c w]; [done|]. intros _. by rewrite append_cons. Qed.

Lemma last_in_append p w t : t <> "" -> last_in p (w +:+ t) = last_in p t.
Proof.
  intros Ht. induction w as [|c w IH]; [done|].
  rewrite append_cons. cbn [last_in].
  destruct (w +:+ t) eqn:Hrest; [|done].
  by apply append_empty in Hrest.
Qed.

Lemma sub_blanks_before_append x w t :
  Py.all (fun c => negb (Py.isspace c)) w = true ->
  Py.sub_blanks_before x (w +:+ t) = w +:+ Py.sub_blanks_before x t.
Proof.
  induction w as [|c w IH]; [done|]. cbn [Py.all].
  intros [Hc Hw]%andb_true_iff. apply negb_true_iff in Hc.
  rewrite !append_cons. cbn [Py.sub_blanks_before]. by rewrite Hc, (IH Hw).
Qed.

Lemma name_part_chars w :
  Py.all name_char w = true ->
  Py.all (fun c => negb (Py.isspace c)) w = true
  /\ Py.all (fun c => negb (Ascii.eqb c ",")) w = true
  /\ Py.all (fun c => negb (Ascii.eqb c "(")) w = true
  /\ Py.all (fun c => negb (Py.mem_char c " ,")) w = true
  /\ Py.mem_char "{" w = false.
Proof.
  intros Hw. repeat split;
    try (apply (all_impl name_char); [|done];
         intros c (Hblank & Hcomma & _ & _ & Hparen)%name_char_spec;
         cbn [Py.mem_char];
         try (destruct (Ascii.eqb c " ") eqn:Hspace;
              [by apply Ascii.eqb_eq in Hspace as ->|]);
         by rewrite ?Hblank, ?Hcomma, ?Hparen).
  induction w as [|c w IH]; [done|]. cbn [Py.all Py.mem_char] in *.
  apply andb_true_iff in Hw as [Hc Hw].
  apply name_char_spec in Hc as (_ & _ & _ & Hc & _).
  rewrite Ascii.eqb_sym, Hc. by apply IH.
Qed.

(** After a part of a name the clean-up has to do what it has to do with
    the rest. *)
Lemma settled_after_part w t :
  Py.all name_char w = true -> w <> "" -> t <> "" ->
  settled (w +:+ t)
  = spaced t && no_blanks_before "," t && no_pair "," "," t
    && no_pair "(" ")" t && no_blanks_before "." t
    && negb (last_in (fun c => Py.mem_char c " ,") t).
Proof.
  intros Hw Hne Ht.
  destruct (name_part_chars w Hw) as (Hblank & Hcomma & Hparen & Hends & _).
  unfold settled, no_blanks_before, no_pair.
  rewrite (spaced_append w t Hblank), !(no_match_append Py.isspace _ w t Hblank).
  rewrite (no_match_append (fun c => Ascii.eqb c ",") _ w t Hcomma).
  rewrite (no_match_append (fun c => Ascii.eqb c "(") _ w t Hparen).
  rewrite (head_in_append _ w t Hne), (last_in_append _ w t Ht).
  by rewrite (head_in_none _ w Hends), andb_true_r.
Qed.

Lemma upper_initial c :
  name_char c = true -> Ascii.eqb c "." = false ->
  Py.isspace (Py.upper_char c) = false
  /\ Py.mem_char (Py.upper_char c) ",.({" = false.
Proof.
  destruct c as [[] [] [] [] [] [] [] []]; intros Hc Hdot;
    vm_compute in Hc, Hdot |- *; by (discriminate || split).
Qed.

Lemma initial_settled C :
  Py.isspace C = false -> Py.mem_char C ",.({" = false ->
  let t := String "," (String " " (String C ".")) in
  spaced t && no_blanks_before "," t && no_pair "," "," t
  && no_pair "(" ")" t && no_blanks_before "." t
  && negb (last_in (fun c => Py.mem_char c " ,") t) = true.
Proof.
  destruct C as [[] [] [] [] [] [] [] []]; intros Hblank Hmem;
    vm_compute in Hblank, Hmem |- *; by (discriminate || reflexivity).
Qed.

(** The tokens of the default format of books: the surname and the initial
    take their places, and no token finds a brace in them. *)
Lemma substitute_book comps :
  Py.mem_char "{" (surname comps) = false ->
  Py.mem_char "{" (_initial (first comps)) = false ->
  substitute "{surname}, {first_initial}." (render_tokens comps)
  = surname comps +:+ ", " +:+ _initial (first comps) +:+ ".".
Proof.
  intros Hw Hi. unfold substitute, render_tokens. cbn [fold_left fst snd].
  set (w := surname comps) in *. set (i := _initial (first comps)) in *.
  change (Py.replace ("{" +:+ "surname" +:+ "}") w
            (Py.replace ("{" +:+ "middle" +:+ "}") (middle comps)
               (Py.replace ("{" +:+ "first" +:+ "}") (first comps)
                  "{surname}, {first_initial}.")))
    with (w +:+ ", {first_initial}.").
  change ("{" +:+ "last" +:+ "}") with (String "{" "last}").
  change ("{" +:+ "family" +:+ "}") with (String "{" "family}").
  change ("{" +:+ "suffix" +:+ "}") with (String "{" "suffix}").
  change ("{" +:+ "first_initial" +:+ "}") with (String "{" "first_initial}").
  change ("{" +:+ "surname_initial" +:+ "}") with (String "{" "surname_initial}").
  change ("{" +:+ "middle_initials" +:+ "}") with (String "{" "middle_initials}").
  assert (Hlast : forall v,
            Py.replace_from (String "{" "last}") v 0 ", {first_initial}."
            = ", {first_initial}.") by reflexivity.
  assert (Hfamily : forall v,
            Py.replace_from (String "{" "family}") v 0 ", {first_initial}."
            = ", {first_initial}.") by reflexivity.
  assert (Hsuffix : forall v,
            Py.replace_from (String "{" "suffix}") v 0 ", {first_initial}."
            = ", {first_initial}.") by reflexivity.
  assert (Hinitial : forall v,
            Py.replace_from (String "{" "first_initial}") v 0 ", {first_initial}."
            = ", " +:+ v +:+ ".") by reflexivity.
  unfold Py.replace at 4 5 6.
  rewrite (replace_past "{" _ _ w _ Hw), Hlast.
  rewrite (replace_past "{" _ _ w _ Hw), Hfamily.
  rewrite (replace_past "{" _ _ w _ Hw), Hsuffix.
  unfold Py.replace at 3.
  rewrite (replace_past "{" _ _ w _ Hw), Hinitial.
  assert (Hout : Py.mem_char "{" (w +:+ ", " +:+ i +:+ ".") = false).
  { rewrite mem_char_append, Hw.
    change (", " +:+ i +:+ ".") with (String "," (String " " (i +:+ "."))).
    cbn [Py.mem_char orb].
    change (Ascii.eqb "{" ",") with false. change (Ascii.eqb "{" " ") with false.
    cbv iota. by rewrite mem_char_append, Hi. }
  by rewrite !(replace_absent "{" _ _ _ Hout).
Qed.

Lemma first_name_has_a_surname full :
  first (_parse_author full) <> "" -> surname (_parse_author full) <> "".
Proof.
  unfold _parse_author. destruct (nonempty full); cbn [negb]; [|done].
  pose proof (pop_suffix_keeps is_word _ (name_parts_words full)) as Hwords.
  destruct (pop_suffix (name_parts full)) as [sfx parts]. cbn [snd] in Hwords.
  destruct (last parts) as [t|] eqn:Hlast; [|done].
  destruct (Nat.eqb (length parts) 1); [done|]. cbn [first surname].
  intros _. apply last_Some_elem_of in Hlast.
  rewrite Forall_forall in Hwords. by destruct (Hwords t Hlast).
Qed.

(** X18: with the default format of books, [{surname}, {first_initial}.],
    an author with a first name and a surname is rendered as the surname, a
    comma, a space, the initial of the first name in upper case and a
    period, all put in title case; this for a name without an opening brace
    or parenthesis whose first name does not start with a period. *)
Theorem book_format_renders_surname_and_initial `{Runtime} (full : string) :
  Py.all plain full = true ->
  first (_parse_author full) <> "" ->
  head_in (fun c => Ascii.eqb c ".") (first (_parse_author full)) = false ->
  _render_author DEFAULT_AUTHOR_FMT_BOOK (_parse_author full)
  = titlecase (surname (_parse_author full) +:+ ", "
               +:+ _initial (first (_parse_author full)) +:+ ".").
Proof.
  intros Hfull Hfirst Hdot.
  pose proof (first_name_has_a_surname full Hfirst) as Hsurname.
  destruct (parse_author_parts (fun w => Py.all name_char w = true) full
              eq_refl (name_parts_chars full Hfull)) as [Hf Hw].
  destruct (name_part_chars _ Hw) as (_ & _ & _ & _ & Hbrace).
  set (comps := _parse_author full) in *.
  destruct (first comps) as [|c f] eqn:Hc; [done|].
  cbn [Py.all head_in] in Hf, Hdot. apply andb_true_iff in Hf as [Hchar _].
  destruct (upper_initial c Hchar Hdot) as [Hblank Hmem].
  assert (Hinitial : Py.mem_char "{" (_initial (first comps)) = false).
  { rewrite Hc. cbn [_initial Py.mem_char]. rewrite Ascii.eqb_sym.
    cbn [Py.mem_char] in Hmem.
    by destruct (Ascii.eqb (Py.upper_char c) ","),
      (Ascii.eqb (Py.upper_char c) "."), (Ascii.eqb (Py.upper_char c) "("),
      (Ascii.eqb (Py.upper_char c) "{"). }
  unfold _render_author, DEFAULT_AUTHOR_FMT_BOOK.
  rewrite (substitute_book comps Hbrace Hinitial). rewrite Hc. cbn [_initial].
  change (", " +:+ String (Py.upper_char c) "" +:+ ".")
    with (String "," (String " " (String (Py.upper_char c) "."))).
  rewrite settled_cleanup.
  - destruct (surname comps) as [|d w]; [done|]. by rewrite append_cons.
  - rewrite (settled_after_part _ _ Hw Hsurname); [|done].
    by apply initial_settled.
Qed.

Lemma book_format_renders_surname_and_initial_witness :
  @_render_author fallback_runtime DEFAULT_AUTHOR_FMT_BOOK
    (_parse_author "maria de la cruz jr.")
  = "Cruz, M.".
Proof.
  rewrite (book_format_renders_surname_and_initial (H := fallback_runtime)
             "maria de la cruz jr."); [reflexivity|reflexivity|discriminate|reflexivity].
Defined.

(** X19: with the default format of books an author of whom only a surname
    is found is rendered as the surname, a comma and a period, put in title
    case: the space before the period goes, the comma stays. *)
Theorem book_format_of_a_single_name `{Runtime} (full : string) :
  Py.all plain full = true ->
  first (_parse_author full) = "" ->
  surname (_parse_author full) <> "" ->
  _render_author DEFAULT_AUTHOR_FMT_BOOK (_parse_author full)
  = titlecase (surname (_parse_author full) +:+ ",.").
Proof.
  intros Hfull Hfirst Hsurname.
  destruct (parse_author_parts (fun w => Py.all name_char w = true) full
              eq_refl (name_parts_chars full Hfull)) as [_ Hw].
  destruct (name_part_chars _ Hw) as (Hblank & Hcomma & Hparen & Hends & Hbrace).
  set (comps := _parse_author full) in *.
  unfold _render_author, DEFAULT_AUTHOR_FMT_BOOK.
  rewrite (substitute_book comps Hbrace); [|by rewrite Hfirst].
  rewrite Hfirst. cbn [_initial].
  change (", " +:+ "" +:+ ".") with ", .".
  set (w := surname comps) in *.
  assert (Hclean : cleanup (w +:+ ", .") = w +:+ ",.").
  { unfold cleanup, Py.strip, Py.strip_chars, Py.strip_if.
    rewrite spaced_sub_blanks by (by rewrite spaced_append).
    rewrite (lstrip_fixed Py.isspace)
      by (rewrite head_in_append by done; by apply head_in_none).
    rewrite (rstrip_fixed Py.isspace) by (by rewrite last_in_append).
    rewrite (no_blanks_before_fixed "," (w +:+ ", ."))
      by (unfold no_blanks_before; by rewrite (no_match_append _ _ w _ Hblank)).
    rewrite (no_pair_fixed "," "," "," (w +:+ ", ."))
      by (unfold no_pair; by rewrite (no_match_append _ _ w _ Hcomma)).
    rewrite (no_pair_fixed "(" ")" "" (w +:+ ", ."))
      by (unfold no_pair; by rewrite (no_match_append _ _ w _ Hparen)).
    rewrite (sub_blanks_before_append "." w ", ." Hblank).
    change (Py.sub_blanks_before "." ", .") with ",.".
    rewrite lstrip_fixed
      by (rewrite head_in_append by done; by apply head_in_none).
    apply rstrip_fixed. by rewrite last_in_append. }
  rewrite Hclean. destruct w as [|d w]; [done|]. by rewrite append_cons.
Qed.

Lemma book_format_of_a_single_name_witness :
  @_render_author fallback_runtime DEFAULT_AUTHOR_FMT_BOOK (_parse_author "plato")
  = "Plato,.".
Proof.
  rewrite (book_format_of_a_single_name (H := fallback_runtime) "plato");
    [reflexivity|reflexivity|reflexivity|discriminate].
Defined.

(** ** The stop and the free target *)

(** X20: nothing is processed after a stop. When the stop is set at the
    turn of a document, the run ends as the run on the documents before it
    ends, with the line of the abort after their lines: the document and
    those after it are not looked at, and the files are as the documents
    before have left them. *)
Theorem nothing_is_processed_after_a_stop `{Runtime} (g : globals) (fuel : nat)
    (is_book : bool) (before : list turn) (t : turn) (rest : list turn)
    (fs : filesystem) :
  Forall (fun t => stop_is_set t = false) before ->
  stop_is_set t = true ->
  process_turns g fuel fs is_book (before ++ t :: rest)
  = match process_turns g fuel fs is_book before with
    | Some (log, fs') => Some (log ++ [AbortedByUser], fs')
    | None => None
    end.
Proof.
  intros Hbefore Hstop. revert fs.
  induction Hbefore as [|t' before Ht' Hbefore IH]; intros fs.
  - cbn [app process_turns]. by rewrite Hstop.
  - cbn [app process_turns]. rewrite Ht'.
    destruct (process_file _ _ _ _ _ _ _) as [[d fs1]|]; [|done].
    rewrite IH. by destruct (process_turns g fuel fs1 is_book before) as [[log fs2]|].
Qed.

Lemma nothing_is_processed_after_a_stop_witness :
  @process_turns fallback_runtime example_globals 0 (tree small_shelf) false
    ([] ++ {| turn_path := "/d/X.pdf"; stop_is_set := true;
              turn_reply := CallRaises; turn_extraction := None |}
        :: [study_turn])
  = Some ([] ++ [AbortedByUser], tree small_shelf).
Proof.
  apply (nothing_is_processed_after_a_stop (H := fallback_runtime)
           example_globals 0 false []
           {| turn_path := "/d/X.pdf"; stop_is_set := true;
              turn_reply := CallRaises; turn_extraction := None |}
           [study_turn] (tree small_shelf)); [constructor|reflexivity].
Defined.

(** X21: a document that exists is renamed when its target is free and
    [os.replace] does not refuse. When the name built from the metadata
    gives, in the directory of the document, a path other than the
    document's at which there is nothing, the decision is the rename to
    that path, with no tag, unless [os.replace] raises: afterwards the path
    holds what the document held and the old path holds nothing. When
    [os.replace] raises, the decision is the failure and the files are as
    they were. *)
Theorem free_target_is_taken `{Runtime} (cfg : settings) (fuel : nat)
    (fs : filesystem) (path : string) (is_book : bool) (meta : metadata)
    (new_name : string) (n : node) :
  build_new_filename cfg meta is_book = Some new_name ->
  abspath path <> abspath (Path.join (Path.dirname path) new_name) ->
  fs (Path.join (Path.dirname path) new_name) = None ->
  fs path = Some n ->
  if replace_raises path (Path.join (Path.dirname path) new_name)
  then rename_with cfg fuel fs path is_book meta = Some (Failed, fs)
  else
    exists fs',
      rename_with cfg fuel fs path is_book meta
      = Some (Renamed path (Path.join (Path.dirname path) new_name), fs')
      /\ fs' (Path.join (Path.dirname path) new_name) = Some n
      /\ fs' path = None.
Proof.
  intros Hname Habs Hfree Hpath. unfold rename_with. rewrite Hname.
  apply String.eqb_neq in Habs. rewrite Habs.
  unfold resolve, path_exists. rewrite Hfree.
  cbn [fmap option_fmap option_map refused].
  destruct (replace_raises path (Path.join (Path.dirname path) new_name));
    [done|].
  cbn [commit]. unfold os_replace. rewrite Hpath.
  eexists. split; [reflexivity|]. cbn beta.
  rewrite String.eqb_refl. split; [done|].
  destruct (String.eqb path (Path.join (Path.dirname path) new_name)) eqn:Hsame.
  - apply String.eqb_eq in Hsame. rewrite <- Hsame in Hfree. congruence.
  - by rewrite String.eqb_refl.
Qed.

Lemma free_target_is_taken_witness :
  exists fs',
    @rename_with fallback_runtime default_settings 0 (tree small_shelf)
      "/d/in.pdf" false (@get_metadata_from_snippet fallback_runtime study)
    = Some (Renamed "/d/in.pdf"
              (Path.join (Path.dirname "/d/in.pdf")
                 "Acm - 2020 - Doe - A Study Part 12.pdf"), fs')
    /\ fs' (Path.join (Path.dirname "/d/in.pdf")
              "Acm - 2020 - Doe - A Study Part 12.pdf")
       = Some (File (bytes_of "AAAA"))
    /\ fs' "/d/in.pdf" = None.
Proof.
  apply (free_target_is_taken (H := fallback_runtime) default_settings 0
           (tree small_shelf) "/d/in.pdf" false
           (@get_metadata_from_snippet fallback_runtime study)
           "Acm - 2020 - Doe - A Study Part 12.pdf" (File (bytes_of "AAAA")));
    [reflexivity|discriminate|reflexivity|reflexivity].
Defined.
